(** * The service bridge of xcode-index-mcp

    A shallow embedding of [src/xcode_index_mcp/server.py]: the singleton
    [SwiftService] (worker process, stream connection, request dispatcher),
    the four tools built on it and the shutdown handler.

    Python values are an inductive type, exceptions are values of [exn], and
    a method of the service is a function from a [World] (the fields of the
    singleton plus the trace of effects performed so far) to an outcome and
    the next world.  What the operating system, asyncio and the worker answer
    is not in the sources: it is an [Env], a record of oracles that read the
    trace, and every theorem quantifies over it. *)

From Stdlib Require Import String Ascii List ZArith NArith Bool Lia Arith.
From Stdlib Require Import DecimalString.
From Stdlib Require QArith_base.
Import ListNotations.
Local Open Scope string_scope.
Local Open Scope list_scope.
Set Warnings "-register-all".

(** ** Python values *)

(** The values [json.loads] produces and the tools receive. [bool] is kept
    apart from [int] although Python makes it a subclass: [isinstance_int]
    below says so where the code asks. *)
Inductive pyval : Type :=
| PyNone
| PyBool (b : bool)
| PyInt (n : Z)
| PyFloat (x : QArith_base.Q)
| PyStr (s : string)
| PyList (items : list pyval)
| PyDict (fields : list (string * pyval)).

(** Truth value of an object, as [if x:] and [a and b] test it. *)
Definition py_truthy (v : pyval) : bool :=
  match v with
  | PyNone => false
  | PyBool b => b
  | PyInt n => negb (n =? 0)%Z
  | PyFloat x => negb (QArith_base.Qnum x =? 0)%Z
  | PyStr s => negb (s =? "")
  | PyList items => match items with [] => false | _ => true end
  | PyDict fields => match fields with [] => false | _ => true end
  end.

(** [isinstance(v, int)]: true of [int] and of its subclass [bool]. *)
Definition isinstance_int (v : pyval) : bool :=
  match v with
  | PyInt _ | PyBool _ => true
  | _ => false
  end.

(** [isinstance(v, dict)]. *)
Definition isinstance_dict (v : pyval) : bool :=
  match v with
  | PyDict _ => true
  | _ => false
  end.

(** The integer an [int] instance stands for ([True] is 1, [False] is 0). *)
Definition int_value (v : pyval) : option Z :=
  match v with
  | PyInt n => Some n
  | PyBool b => Some (Z.b2z b)
  | _ => None
  end.

(** [v < 1] for an instance of [int]. The source evaluates it only behind
    [not isinstance(v, int) or], so the other values never reach it. *)
Definition lt_one (v : pyval) : bool :=
  match int_value v with
  | Some n => (n <? 1)%Z
  | None => false
  end.

(** [str(n)] for an [int]: decimal digits, a minus sign when negative. *)
Definition string_of_Z (n : Z) : string :=
  NilZero.string_of_int (Z.to_int n).

(** Lookup of a key in a dict's fields. *)
Fixpoint dict_get (key : string) (fields : list (string * pyval)) : option pyval :=
  match fields with
  | [] => None
  | (k, v) :: rest => if k =? key then Some v else dict_get key rest
  end.

Definition dict_has (key : string) (fields : list (string * pyval)) : bool :=
  match dict_get key fields with
  | Some _ => true
  | None => false
  end.

(** [needle in haystack] on strings: [needle] occurs as a substring. *)
Fixpoint is_substring (needle haystack : string) : bool :=
  if prefix needle haystack then true
  else match haystack with
       | EmptyString => false
       | String _ rest => is_substring needle rest
       end.

(** [x == key] for a string [key]: only a [str] with the same characters. *)
Definition eq_str (key : string) (x : pyval) : bool :=
  match x with
  | PyStr s => s =? key
  | _ => false
  end.

(** ** Errors *)

(** The two error codes of [mcp.types] the bridge uses. *)
Inductive ErrorCode : Type :=
| INTERNAL_ERROR
| INVALID_PARAMS.

Record ErrorData : Type := mkErrorData {
  code : ErrorCode;
  message : string
}.

(** Exceptions, by the classes the handlers of the source tell apart; every
    one is a subclass of [Exception]. *)
Inductive exn : Type :=
| ProcessLookupError
| TimeoutExpired
| JSONDecodeError (msg : string)
| McpError (error : ErrorData)
| KeyError (key : string)
| TypeError
| AttributeError
| OtherException (what : string).

Inductive outcome (A : Type) : Type :=
| Ok (a : A)
| Raise (e : exn).
Arguments Ok {A} a.
Arguments Raise {A} e.

Definition obind {A B} (m : outcome A) (k : A -> outcome B) : outcome B :=
  match m with
  | Ok a => k a
  | Raise e => Raise e
  end.

Declare Scope outcome_scope.
Delimit Scope outcome_scope with out.
Notation "x <- m ;; k" := (obind m (fun x => k))
  (at level 61, m at next level, right associativity) : outcome_scope.

(** [key in v]. *)
Definition py_contains (key : string) (v : pyval) : outcome bool :=
  match v with
  | PyDict fields => Ok (dict_has key fields)
  | PyList items => Ok (existsb (eq_str key) items)
  | PyStr s => Ok (is_substring key s)
  | _ => Raise TypeError
  end.

(** [v[key]] for a string [key]. *)
Definition py_getitem (v : pyval) (key : string) : outcome pyval :=
  match v with
  | PyDict fields =>
      match dict_get key fields with
      | Some x => Ok x
      | None => Raise (KeyError key)
      end
  | _ => Raise TypeError
  end.

(** ** The request line *)

(** A request as [send_request] builds it: [id], [method] and [params], a
    dict from strings to strings in every caller, kept as the list of its
    items in insertion order (the order [json.dumps] writes them in). *)
Record Request : Type := mkRequest {
  req_id : string;
  req_method : string;
  req_params : list (string * string)
}.

Module Wire.

Definition dquote : ascii := "034"%char.
Definition backslash : ascii := "092"%char.
Definition newline : ascii := "010"%char.

(** Lower-case hexadecimal digit of a number below 16. *)
Definition hex_digit (n : nat) : ascii :=
  if (n <? 10)%nat then ascii_of_nat (48 + n) else ascii_of_nat (87 + n).

(** How [json.dumps] (with its default [ensure_ascii=True]) writes one
    character of a string. A character is a code point, here one of
    U+0000..U+00FF, the range of [ascii]: the quote and the backslash get a
    backslash, the five control characters with a short form use it, the
    other printable ASCII characters stand for themselves, and everything
    else is written as a four-digit escape. *)
Definition escape_char (c : ascii) : string :=
  let n := nat_of_ascii c in
  if (n =? 34)%nat then String backslash (String dquote "")
  else if (n =? 92)%nat then String backslash (String backslash "")
  else if (n =? 10)%nat then String backslash "n"
  else if (n =? 13)%nat then String backslash "r"
  else if (n =? 9)%nat then String backslash "t"
  else if (n =? 8)%nat then String backslash "b"
  else if (n =? 12)%nat then String backslash "f"
  else if ((32 <=? n) && (n <=? 126))%nat then String c ""
  else String backslash
         (String "u" (String "0" (String "0"
            (String (hex_digit (n / 16)) (String (hex_digit (n mod 16)) ""))))).

Fixpoint escape (s : string) : string :=
  match s with
  | EmptyString => ""
  | String c rest => escape_char c ++ escape rest
  end.

(** [json.dumps] of a string. *)
Definition dumps_str (s : string) : string :=
  String dquote (escape s ++ String dquote "").

(** The items of a dict, separated by [", "], each written [key: value]. *)
Fixpoint dumps_items (items : list (string * string)) : string :=
  match items with
  | [] => ""
  | [(k, v)] => dumps_str k ++ ": " ++ dumps_str v
  | (k, v) :: rest => dumps_str k ++ ": " ++ dumps_str v ++ ", " ++ dumps_items rest
  end.

(** [json.dumps] of a dict of strings. *)
Definition dumps_dict (items : list (string * string)) : string :=
  "{" ++ dumps_items items ++ "}".

(** [json.dumps(request)] for the dict of lines 172-176. *)
Definition dumps (r : Request) : string :=
  "{" ++ dumps_str "id" ++ ": " ++ dumps_str (req_id r) ++ ", "
      ++ dumps_str "method" ++ ": " ++ dumps_str (req_method r) ++ ", "
      ++ dumps_str "params" ++ ": " ++ dumps_dict (req_params r) ++ "}".

(** [json.dumps(request).encode() + b'\n']: the text is ASCII, so its UTF-8
    encoding has the same characters. *)
Definition encode (r : Request) : string :=
  dumps r ++ String newline "".

(** The text holds no line delimiter. *)
Fixpoint single_line (s : string) : bool :=
  match s with
  | EmptyString => true
  | String c rest => negb (Ascii.eqb c newline) && single_line rest
  end.

(** Every character is printable ASCII, U+0020..U+007E. *)
Fixpoint printable (s : string) : bool :=
  match s with
  | EmptyString => true
  | String c rest =>
      ((32 <=? nat_of_ascii c) && (nat_of_ascii c <=? 126))%nat && printable rest
  end.

(** Every character is printable ASCII and neither a quote nor a
    backslash: the characters [json.dumps] writes as they are. *)
Fixpoint plain (s : string) : bool :=
  match s with
  | EmptyString => true
  | String c rest =>
      ((32 <=? nat_of_ascii c) && (nat_of_ascii c <=? 126))%nat
      && negb (Ascii.eqb c dquote) && negb (Ascii.eqb c backslash)
      && plain rest
  end.

End Wire.

Arguments Wire.encode _ : simpl never.

(** ** The request line of any text *)

(** A Python [str] is a sequence of code points, any of U+0000..U+10FFFF,
    the surrogates U+D800..U+DFFF among them. A [string], the text of the
    service model, holds the code points U+0000..U+00FF;
    [Unicode] has [json.dumps] on the whole range, as
    [json.encoder.py_encode_basestring_ascii] defines it, and [Wire] is its
    restriction to [string] (lemma [escape_agrees]). *)
Module Unicode.
Local Open Scope N_scope.

(** The code points of a [str], in order. *)
Definition str : Type := list N.

Definition is_surrogate (c : N) : bool := (0xD800 <=? c) && (c <=? 0xDFFF).

(** A Unicode scalar value: a code point that is no surrogate. *)
Definition is_scalar (c : N) : bool := (c <? 0x110000) && negb (is_surrogate c).

(** Text without surrogate code points. *)
Definition scalar (s : str) : bool := forallb is_scalar s.

Definition scalar_items (items : list (str * str)) : bool :=
  forallb (fun kv => scalar (fst kv) && scalar (snd kv)) items.

(** The code points of a [string]. *)
Definition of_string (s : string) : str := map N_of_ascii (list_ascii_of_string s).

(** The dict of lines 172-176 with any text for its id, its method and the
    keys and values of its parameters. *)
Record Request : Type := mkRequest {
  req_id : str;
  req_method : str;
  req_params : list (str * str)
}.

Definition scalar_request (r : Request) : bool :=
  scalar (req_id r) && scalar (req_method r) && scalar_items (req_params r).

(** Lower-case hexadecimal digit of a number below 16. *)
Definition hex_digit (d : N) : ascii :=
  if d <? 10 then ascii_of_N (48 + d) else ascii_of_N (87 + d).

(** What Python's format [{0:04x}] gives after a backslash and a [u], for a
    number below 0x10000: four hexadecimal digits. *)
Definition u_escape (n : N) : string :=
  String Wire.backslash (String "u"
    (String (hex_digit (n / 4096)) (String (hex_digit ((n / 256) mod 16))
      (String (hex_digit ((n / 16) mod 16)) (String (hex_digit (n mod 16)) ""))))).

(** How [json.dumps] (with [ensure_ascii=True]) writes one code point: the
    quote and the backslash get a backslash, the five control characters
    with a short form use it, the other printable ASCII characters stand
    for themselves, any other code point below 0x10000 is a four-digit
    escape, a surrogate like any other, and a code point from 0x10000 on is
    the two escapes of its surrogate pair. *)
Definition escape_point (n : N) : string :=
  if n =? 34 then String Wire.backslash (String Wire.dquote "")
  else if n =? 92 then String Wire.backslash (String Wire.backslash "")
  else if n =? 10 then String Wire.backslash "n"
  else if n =? 13 then String Wire.backslash "r"
  else if n =? 9 then String Wire.backslash "t"
  else if n =? 8 then String Wire.backslash "b"
  else if n =? 12 then String Wire.backslash "f"
  else if (32 <=? n) && (n <=? 126) then String (ascii_of_N n) ""
  else if n <? 0x10000 then u_escape n
  else
    let v := n - 0x10000 in
    (u_escape (N.lor 0xd800 (N.land (N.shiftr v 10) 0x3ff))
     ++ u_escape (N.lor 0xdc00 (N.land v 0x3ff)))%string.

Fixpoint escape (s : str) : string :=
  match s with
  | [] => ""
  | c :: rest => (escape_point c ++ escape rest)%string
  end.

(** [json.dumps] of a [str]. *)
Definition dumps_str (s : str) : string :=
  String Wire.dquote (escape s ++ String Wire.dquote "")%string.

Fixpoint dumps_items (items : list (str * str)) : string :=
  match items with
  | [] => ""
  | [(k, v)] => (dumps_str k ++ ": " ++ dumps_str v)%string
  | (k, v) :: rest =>
      (dumps_str k ++ ": " ++ dumps_str v ++ ", " ++ dumps_items rest)%string
  end.

Definition dumps_dict (items : list (str * str)) : string :=
  ("{" ++ dumps_items items ++ "}")%string.

(** [json.dumps(request)]. *)
Definition dumps (r : Request) : string :=
  ("{" ++ dumps_str (of_string "id") ++ ": " ++ dumps_str (req_id r) ++ ", "
       ++ dumps_str (of_string "method") ++ ": " ++ dumps_str (req_method r) ++ ", "
       ++ dumps_str (of_string "params") ++ ": " ++ dumps_dict (req_params r)
       ++ "}")%string.

(** [json.dumps(request).encode() + b'\n']: the bytes of the line, one for
    each character of the text, which is ASCII. *)
Definition encode (r : Request) : string :=
  (dumps r ++ String Wire.newline "")%string.

End Unicode.

(** A request of the service model, as text. *)
Definition as_text (r : Request) : Unicode.Request :=
  Unicode.mkRequest (Unicode.of_string (req_id r)) (Unicode.of_string (req_method r))
    (map (fun kv => (Unicode.of_string (fst kv), Unicode.of_string (snd kv)))
         (req_params r)).

(** ** The world outside the bridge *)

Definition Pid := nat.
Definition Conn := nat.

Inductive Signal : Type :=
| SIGTERM
| SIGKILL.

(** One effect the bridge performed. The trace of a world lists them, the
    most recent first. *)
Inductive Event : Type :=
| EvPopen
| EvSleep (seconds : nat)
| EvOpenConnection (host : string) (port : N)
| EvWrite (c : Conn) (data : string)
| EvDrain (c : Conn)
| EvReadline (c : Conn)
| EvClose (c : Conn)
| EvWaitClosed (c : Conn)
| EvGetpgid (p : Pid)
| EvKillpg (pgid : nat) (sig : Signal)
| EvWait (p : Pid) (timeout : nat)
| EvExit (status : nat).

(** What the outside answers. Each oracle reads the trace up to the call, so
    an answer may depend on everything done before (a worker replies to the
    request it was sent, a closed stream stays closed). A stream operation
    may raise any exception. Signalling the worker has the two answers the
    source provides for: [getpgid] finds the process group or not ([None],
    raised as [ProcessLookupError]), [killpg] delivers the signal or finds no
    such group ([false]), [wait] sees the process exit within the timeout or
    not ([false], raised as [TimeoutExpired]). The last four fields are the
    Python runtime's: [str] of an exception, [repr] of a value and of a list
    of strings, and [json.loads] of a decoded line. *)
Record Env : Type := mkEnv {
  popen : list Event -> outcome Pid;
  open_connection : list Event -> outcome Conn;
  id_of_params : list Event -> string;
  write : list Event -> Conn -> string -> outcome unit;
  drain : list Event -> Conn -> outcome unit;
  readline : list Event -> Conn -> outcome string;
  close : list Event -> Conn -> outcome unit;
  wait_closed : list Event -> Conn -> outcome unit;
  getpgid : list Event -> Pid -> option nat;
  killpg : list Event -> nat -> Signal -> bool;
  wait : list Event -> Pid -> bool;
  exn_str : exn -> string;
  py_repr : pyval -> string;
  list_repr : list string -> string;
  json_loads : string -> outcome pyval
}.

(** The fields of the singleton that change ([host] and [port] are fixed). *)
Record Service : Type := mkService {
  reader : option Conn;
  writer : option Conn;
  swift_process : option Pid
}.

Record World : Type := mkWorld {
  service : Service;
  trace : list Event
}.

Definition host : string := "localhost".
Definition port : N := 7949%N.

(** A service with a worker process and both stream handles, [c] the
    writer's. *)
Definition connected (w : World) (c : Conn) : Prop :=
  exists r p, service w = mkService (Some r) (Some c) (Some p).

Definition is_write (ev : Event) : bool :=
  match ev with EvWrite _ _ => true | _ => false end.

Definition is_open_connection (ev : Event) : bool :=
  match ev with EvOpenConnection _ _ => true | _ => false end.

Definition is_popen (ev : Event) : bool :=
  match ev with EvPopen => true | _ => false end.

Definition is_readline (ev : Event) : bool :=
  match ev with EvReadline _ => true | _ => false end.

(** The events of closing a stream, and those of stopping the process. *)
Definition is_close_event (ev : Event) : bool :=
  match ev with EvClose _ | EvWaitClosed _ => true | _ => false end.


Definition count (f : Event -> bool) (t : list Event) : nat :=
  length (filter f t).

(** The service as [__init__] leaves it, nothing done yet. *)
Definition initial_world : World :=
  mkWorld (mkService None None None) [].

(** ** Computations *)

Definition M (A : Type) : Type := World -> outcome A * World.

Definition ret {A} (a : A) : M A := fun w => (Ok a, w).

Definition raise {A} (e : exn) : M A := fun w => (Raise e, w).

Definition bind {A B} (m : M A) (k : A -> M B) : M B :=
  fun w =>
    match m w with
    | (Ok a, w') => k a w'
    | (Raise e, w') => (Raise e, w')
    end.

Declare Scope io_scope.
Delimit Scope io_scope with io.
Notation "x <- m ;; k" := (bind m (fun x => k))
  (at level 61, m at next level, right associativity) : io_scope.
Notation "m ;; k" := (bind m (fun _ => k))
  (at level 61, right associativity) : io_scope.

(** [try: body except Exception as e: handler e]; the effects of [body] up to
    the exception stay. *)
Definition try_except {A} (body : M A) (handler : exn -> M A) : M A :=
  fun w =>
    match body w with
    | (Ok a, w') => (Ok a, w')
    | (Raise e, w') => handler e w'
    end.

Definition lift {A} (o : outcome A) : M A := fun w => (o, w).

Definition get_service : M Service := fun w => (Ok (service w), w).

Definition set_service (s : Service) : M unit :=
  fun w => (Ok tt, mkWorld s (trace w)).

(** An effect: the event joins the trace whatever the outside answers. *)
Definition effect {A} (ev : Event) (answer : list Event -> outcome A) : M A :=
  fun w => (answer (trace w), mkWorld (service w) (ev :: trace w)).

Definition run {A} (m : M A) (w : World) : outcome A := fst (m w).
Definition exec {A} (m : M A) (w : World) : World := snd (m w).

(** ** [class SwiftService] *)

Module SwiftService.
Section Methods.
Context (E : Env).
Local Open Scope io_scope.

Definition is_set {A} (o : option A) : bool :=
  match o with
  | Some _ => true
  | None => false
  end.

Definition internal_error {A} (text : string) : M A :=
  raise (McpError (mkErrorData INTERNAL_ERROR text)).

(** [os.killpg(os.getpgid(self.swift_process.pid), sig)]. *)
Definition signal_group (p : Pid) (sig : Signal) : M unit :=
  pgid <- effect (EvGetpgid p)
            (fun t => match getpgid E t p with
                      | Some g => Ok g
                      | None => Raise ProcessLookupError
                      end) ;;
  effect (EvKillpg pgid sig)
    (fun t => if killpg E t pgid sig then Ok tt else Raise ProcessLookupError).

(** [self.swift_process.wait(timeout=2)]. *)
Definition wait_process (p : Pid) : M unit :=
  effect (EvWait p 2)
    (fun t => if wait E t p then Ok tt else Raise TimeoutExpired).

(** The block shared by [_cleanup] and [stop] (lines 83-95 and 132-144):
    SIGTERM to the group and a two-second wait; when the process is not found
    or does not exit in time, SIGKILL, where "not found" is passed over; then
    the stored process is forgotten. Any other exception leaves the block
    before the field is cleared. *)
Definition terminate_process : M unit :=
  s <- get_service ;;
  match swift_process s with
  | Some p =>
      try_except
        (signal_group p SIGTERM ;;
         wait_process p)
        (fun e =>
           match e with
           | ProcessLookupError | TimeoutExpired =>
               try_except (signal_group p SIGKILL)
                 (fun e' =>
                    match e' with
                    | ProcessLookupError => ret tt
                    | _ => raise e'
                    end)
           | _ => raise e
           end) ;;
      s' <- get_service ;;
      set_service (mkService (reader s') (writer s') None)
  | None => ret tt
  end.

(** The second lookup of the group and the forceful kill, as events on top
    of the trace [t] they start from. *)
Definition sigkill_events (p : Pid) (t : list Event) : list Event :=
  match getpgid E t p with
  | Some g => [EvKillpg g SIGKILL; EvGetpgid p]
  | None => [EvGetpgid p]
  end.

(** The events of the block that stops the process, by the answers of the
    operating system: SIGTERM and the wait, then the fallback when the group
    was not found at either step or the wait timed out. *)
Definition terminate_events (p : Pid) (t : list Event) : list Event :=
  match getpgid E t p with
  | None => sigkill_events p (EvGetpgid p :: t) ++ [EvGetpgid p]
  | Some g =>
      let t1 := EvGetpgid p :: t in
      if killpg E t1 g SIGTERM then
        let t2 := EvKillpg g SIGTERM :: t1 in
        if wait E t2 p then [EvWait p 2; EvKillpg g SIGTERM; EvGetpgid p]
        else sigkill_events p (EvWait p 2 :: t2)
               ++ [EvWait p 2; EvKillpg g SIGTERM; EvGetpgid p]
      else sigkill_events p (EvKillpg g SIGTERM :: t1)
             ++ [EvKillpg g SIGTERM; EvGetpgid p]
  end.

(** [def _cleanup(self)], registered with [atexit]. *)
Definition _cleanup : M unit := terminate_process.

(** [async def connect(self)]. *)
Definition connect : M unit :=
  s <- get_service ;;
  if negb (is_set (reader s)) || negb (is_set (writer s)) then
    try_except
      (c <- effect (EvOpenConnection host port) (open_connection E) ;;
       s' <- get_service ;;
       set_service (mkService (Some c) (Some c) (swift_process s')))
      (fun e =>
         internal_error ("Failed to connect to Swift service: " ++ exn_str E e))
  else ret tt.

(** [async def start(self)]. *)
Definition start : M unit :=
  s <- get_service ;;
  match swift_process s with
  | None =>
      p <- effect EvPopen (popen E) ;;
      s' <- get_service ;;
      set_service (mkService (reader s') (writer s') (Some p)) ;;
      effect (EvSleep 2) (fun _ => Ok tt) ;;
      connect
  | Some _ => ret tt
  end.

(** Lines 128-130 of [stop]: [self.writer.close()] and
    [await self.writer.wait_closed()] when a writer is stored. The handles
    stay stored. *)
Definition close_writer : M unit :=
  s <- get_service ;;
  match writer s with
  | Some c =>
      effect (EvClose c) (fun t => close E t c) ;;
      effect (EvWaitClosed c) (fun t => wait_closed E t c)
  | None => ret tt
  end.

(** [async def stop(self)]. *)
Definition stop : M unit :=
  close_writer ;;
  terminate_process.

(** [async def ensure_connected(self)]. *)
Definition ensure_connected : M unit :=
  s <- get_service ;;
  match swift_process s with
  | None => start
  | Some _ =>
      if negb (is_set (reader s)) || negb (is_set (writer s)) then connect
      else ret tt
  end.

(** [str(v)]: the text of a string, the digits of an [int], the names of
    [True], [False] and [None]; a float, list or dict is shown by its
    [repr]. *)
Definition py_str (v : pyval) : string :=
  match v with
  | PyStr s => s
  | PyInt n => string_of_Z n
  | PyBool true => "True"
  | PyBool false => "False"
  | PyNone => "None"
  | _ => py_repr E v
  end.

(** Lines 184-203: what [send_request] makes of a decoded response. *)
Definition check_response (response : pyval) : outcome pyval :=
  (has_error <- py_contains "error" response ;;
   error_set <- (if has_error : bool
                 then e <- py_getitem response "error" ;; Ok (py_truthy e)
                 else Ok false) ;;
   if error_set : bool then
     e <- py_getitem response "error" ;;
     Raise (McpError (mkErrorData INTERNAL_ERROR (py_str e)))
   else
     result <- py_getitem response "result" ;;
     in_result <- (if isinstance_dict result
                   then py_contains "error" result
                   else Ok false) ;;
     if in_result : bool then
       e <- py_getitem result "error" ;;
       Raise (McpError (mkErrorData INVALID_PARAMS (py_str e)))
     else Ok result)%out.

(** The two [except] clauses of [send_request] (lines 205-220), in order:
    [json.JSONDecodeError] first, then every other [Exception], the
    [McpError]s raised inside the [try] included. *)
Definition send_request_handler {A} (e : exn) : M A :=
  match e with
  | JSONDecodeError _ =>
      internal_error ("Failed to decode Swift service response: " ++ exn_str E e)
  | _ => internal_error ("Swift service error: " ++ exn_str E e)
  end.

(** A method call on [self.writer] or [self.reader]; on [None] the
    attribute lookup raises. *)
Definition the_stream (field : Service -> option Conn) : M Conn :=
  s <- get_service ;;
  match field s with
  | Some c => ret c
  | None => raise AttributeError
  end.

(** Lines 172-179 of the [try]: the request is built and written, and the
    write buffer drained. *)
Definition exchange_send (method : string) (params : list (string * string)) : M unit :=
  rid <- (fun w => (Ok (id_of_params E (trace w)), w)) ;;
  let request := mkRequest rid method params in
  w <- the_stream writer ;;
  effect (EvWrite w (Wire.encode request)) (fun t => write E t w (Wire.encode request)) ;;
  effect (EvDrain w) (fun t => drain E t w).

(** Lines 181-203: the next line of the stream is awaited, decoded
    ([response_data.decode()] and [json.loads] together are the oracle
    [json_loads]) and checked. *)
Definition exchange_receive : M pyval :=
  r <- the_stream reader ;;
  response_data <- effect (EvReadline r) (fun t => readline E t r) ;;
  response <- lift (json_loads E response_data) ;;
  lift (check_response response).

(** The body of the [try] of [send_request], lines 172-203. *)
Definition exchange (method : string) (params : list (string * string)) : M pyval :=
  exchange_send method params ;;
  exchange_receive.

(** [async def send_request(self, method, params)]. *)
Definition send_request (method : string) (params : list (string * string)) : M pyval :=
  ensure_connected ;;
  try_except (exchange method params) send_request_handler.

(** The worker answered the request of [method] and [params] made in [w]:
    the request was written and drained, and the line read next decodes to
    [response]. *)
Definition replies_with (method : string) (params : list (string * string))
  (w : World) (response : pyval) : Prop :=
  exists w1 r line,
    exchange_send method params w = (Ok tt, w1) /\
    reader (service w1) = Some r /\
    readline E (trace w1) r = Ok line /\
    json_loads E line = Ok response.

(** The fields of a response carry no error the test of line 184 sees: no
    "error" key, or one whose value is falsy. *)
Definition no_top_error (fields : list (string * pyval)) : Prop :=
  match dict_get "error" fields with
  | Some e => py_truthy e = false
  | None => True
  end.

End Methods.
End SwiftService.

(** ** The tools *)

Section Tools.
Context (E : Env).
Local Open Scope io_scope.
Import SwiftService.

Definition invalid_params {A} (text : string) : M A :=
  raise (McpError (mkErrorData INVALID_PARAMS text)).

(** The handlers shared by three tools: [except McpError: raise], then
    [except Exception as e] wrapping the text of [e]. *)
Definition tool_handler {A} (prefix : string) (e : exn) : M A :=
  match e with
  | McpError _ => raise e
  | _ => internal_error (prefix ++ exn_str E e)
  end.

(** What a tool does once its arguments passed validation: the call to
    [send_request] under the tool's two handlers. *)
Definition dispatched (prefix method : string) (params : list (string * string))
  : M pyval :=
  try_except (send_request E method params) (tool_handler prefix).

(** [async def load_index(projectName)]: one handler, for every exception. *)
Definition load_index (projectName : string) : M pyval :=
  try_except
    (send_request E "is_available" [("projectName", projectName)])
    (fun e =>
       internal_error ("Failed to load index for project '" ++ projectName
                       ++ "': " ++ exn_str E e)).

(** [async def symbol_occurrences(filePath, lineNumber)]. *)
Definition symbol_occurrences (filePath : string) (lineNumber : pyval) : M pyval :=
  try_except
    (if negb (isinstance_int lineNumber) || lt_one lineNumber
     then invalid_params "lineNumber must be a positive integer"
     else send_request E "symbol_occurrences"
            [("filePath", filePath); ("lineNumber", py_str E lineNumber)])
    (tool_handler "Failed to get symbol occurrences: ").

Definition valid_roles : list string := ["reference"; "definition"].

Definition valid_options : list string :=
  ["anchorStart"; "anchorEnd"; "subsequence"; "ignoreCase"].

(** [x in xs] for a list of strings. *)
Definition str_in (x : string) (xs : list string) : bool :=
  existsb (String.eqb x) xs.

(** [[x for x in xs if x not in allowed]]. *)
Definition not_allowed (allowed xs : list string) : list string :=
  filter (fun x => negb (str_in x allowed)) xs.

(** [",".join(xs)]. *)
Definition join_comma (xs : list string) : string := String.concat "," xs.

(** [async def get_occurrences(usr, roles)]. *)
Definition get_occurrences (usr : string) (roles : list string) : M pyval :=
  try_except
    (let invalid_roles := not_allowed valid_roles roles in
     match invalid_roles with
     | _ :: _ =>
         invalid_params ("Invalid roles: " ++ list_repr E invalid_roles
                         ++ ". Must be one of: " ++ list_repr E valid_roles)
     | [] =>
         send_request E "get_occurrences"
           [("usr", usr); ("roles", join_comma roles)]
     end)
    (tool_handler "Failed to get symbol occurrences: ").

(** [async def search_pattern(pattern, options=None)]; [if options:] holds
    for a list with an element. *)
Definition search_pattern (pattern : string) (options : option (list string)) : M pyval :=
  try_except
    (let given := match options with Some (o :: os) => o :: os | _ => [] end in
     match not_allowed valid_options given with
     | _ :: _ as invalid_options =>
         invalid_params ("Invalid options: " ++ list_repr E invalid_options
                         ++ ". Must be one of: " ++ list_repr E valid_options)
     | [] =>
         send_request E "search_pattern"
           (("pattern", pattern)
              :: match given with
                 | [] => []
                 | _ => [("options", join_comma given)]
                 end)
     end)
    (tool_handler "Failed to search pattern: ").




End Tools.

(** ** Calls that overlap *)

(** [send_request] is a coroutine: where it awaits the reply of the worker
    (line 181) it is suspended, and the event loop runs other calls on the
    same singleton meanwhile. The source takes no lock and keeps no queue,
    and it never compares the id of a response with the id it sent, so
    nothing but the scheduler decides which call runs next and which line a
    call reads. A call is modelled by its two segments, before and after
    that suspension; a schedule names, step by step, the call that runs its
    next segment. The line a call reads is the stream's next one at the
    moment its second segment runs, as the oracle [readline] answers it. *)
Module Concurrent.
Section Calls.
Context (E : Env).
Import SwiftService.

Inductive call : Type :=
| Pending (method : string) (params : list (string * string))
| Awaiting
| Finished (result : outcome pyval).

(** The first segment: [ensure_connected] (outside the [try]), then the
    request is written; an exception in the [try] goes to its handlers. *)
Definition begin (method : string) (params : list (string * string))
  (w : World) : call * World :=
  match ensure_connected E w with
  | (Raise e, w1) => (Finished (Raise e), w1)
  | (Ok _, w1) =>
      match exchange_send E method params w1 with
      | (Ok _, w2) => (Awaiting, w2)
      | (Raise e, w2) =>
          let (r, w3) := @send_request_handler E pyval e w2 in (Finished r, w3)
      end
  end.

(** The second segment: the line is read, decoded and checked, still inside
    the [try]. *)
Definition resume (w : World) : call * World :=
  let (r, w1) := try_except (exchange_receive E) (@send_request_handler E pyval) w in
  (Finished r, w1).

Definition step_call (c : call) (w : World) : call * World :=
  match c with
  | Pending method params => begin method params w
  | Awaiting => resume w
  | Finished r => (Finished r, w)
  end.

(** Replaces the [i]-th call. *)
Fixpoint set_nth (i : nat) (c : call) (calls : list call) : list call :=
  match calls, i with
  | [], _ => []
  | _ :: rest, O => c :: rest
  | c0 :: rest, S j => c0 :: set_nth j c rest
  end.

(** The call numbered [i] runs its next segment. *)
Definition step (i : nat) (cfg : list call * World) : list call * World :=
  let (calls, w) := cfg in
  match nth_error calls i with
  | Some c => let (c', w') := step_call c w in (set_nth i c' calls, w')
  | None => cfg
  end.

Definition run_schedule (schedule : list nat) (cfg : list call * World)
  : list call * World :=
  fold_left (fun cfg i => step i cfg) schedule cfg.

End Calls.

(** The calls that have not run yet. *)
Definition is_pending (c : call) : bool :=
  match c with Pending _ _ => true | _ => false end.

Definition pending (calls : list call) : nat :=
  length (filter is_pending calls).

(** The exchanges on a trace, oldest event first, do not overlap: between a
    write and the read that follows it no other write happens. *)
Fixpoint atomic_from (in_flight : bool) (events : list Event) : bool :=
  match events with
  | [] => true
  | EvWrite _ _ :: rest => if in_flight then false else atomic_from true rest
  | EvReadline _ :: rest => atomic_from false rest
  | _ :: rest => atomic_from in_flight rest
  end.

Definition atomic_exchanges (t : list Event) : bool :=
  atomic_from false (rev t).

End Concurrent.

(** ** The reading side of the wire *)

(** Modelled from the spec: the reader of request lines is the worker, which
    is not among the sources. The spec gives its contract: the wire is
    "line-delimited, one message per line, UTF-8 text", the stream carries
    "single-line JSON messages", [readMessage] "reads one line-delimited unit
    and deserializes it", and a request line is "an object with fields id
    (string), method (string), params (object mapping string keys to ...
    values)". The reader below takes the stream up to its first line
    delimiter and reads that line as JSON text made of objects and strings,
    with blanks between tokens. A string is read as Unicode text, a sequence
    of scalar values: characters written as they are, in UTF-8, every
    two-character escape, every four-digit escape, and the escapes of a
    high and a low surrogate in a row as the one code point the pair stands
    for. UTF-8 text has no surrogate code point, so the escape of a
    surrogate without its partner is refused. *)
Module Decode.
Local Open Scope N_scope.
Import Unicode.

Inductive token : Type :=
| LBrace
| RBrace
| Colon
| Comma
| Str (s : str).

(** The values of a request line. *)
Inductive value : Type :=
| Text (s : str)
| Object (members : list (str * value)).

Definition is_blank (c : ascii) : bool :=
  let n := N_of_ascii c in
  (n =? 32) || (n =? 9) || (n =? 10) || (n =? 13).

Definition hex_value (c : ascii) : option N :=
  let n := N_of_ascii c in
  if (48 <=? n) && (n <=? 57) then Some (n - 48)
  else if (97 <=? n) && (n <=? 102) then Some (n - 87)
  else if (65 <=? n) && (n <=? 70) then Some (n - 55)
  else None.

(** The number a four-digit escape stands for, any of 0x0000..0xFFFF. *)
Definition hex4 (a b c d : ascii) : option N :=
  match hex_value a, hex_value b, hex_value c, hex_value d with
  | Some x, Some y, Some z, Some t => Some (((x * 16 + y) * 16 + z) * 16 + t)
  | _, _, _, _ => None
  end.

(** The character a two-character escape stands for. *)
Definition unescape (c : ascii) : option N :=
  let n := N_of_ascii c in
  if n =? 34 then Some 34
  else if n =? 92 then Some 92
  else if n =? 47 then Some 47
  else if n =? 110 then Some 10
  else if n =? 114 then Some 13
  else if n =? 116 then Some 9
  else if n =? 98 then Some 8
  else if n =? 102 then Some 12
  else None.

Definition is_high (c : N) : bool := (0xD800 <=? c) && (c <=? 0xDBFF).

Definition is_low (c : N) : bool := (0xDC00 <=? c) && (c <=? 0xDFFF).

(** The code point a surrogate pair stands for. *)
Definition pair_value (high low : N) : N :=
  0x10000 + (high - 0xD800) * 0x400 + (low - 0xDC00).

(** Where the reader is: between tokens; inside a string, with the
    characters read so far; inside a string right after the escape of a high
    surrogate; inside a UTF-8 sequence of a string, with the number of bytes
    still to come, the bits read so far and the least code point a sequence
    of that length may stand for. *)
Inductive state : Type :=
| Between
| InString (acc : str)
| AfterHigh (acc : str) (high : N)
| InSequence (acc : str) (remaining : nat) (point least : N).

(** Modelled from the spec: the tokens of a JSON text, read byte by byte. *)
Fixpoint lex (st : state) (input : string) : option (list token) :=
  match input with
  | EmptyString =>
      match st with
      | Between => Some []
      | _ => None
      end
  | String c rest =>
      let n := N_of_ascii c in
      match st with
      | Between =>
          if is_blank c then lex Between rest
          else if n =? 123 then option_map (cons LBrace) (lex Between rest)
          else if n =? 125 then option_map (cons RBrace) (lex Between rest)
          else if n =? 58 then option_map (cons Colon) (lex Between rest)
          else if n =? 44 then option_map (cons Comma) (lex Between rest)
          else if n =? 34 then lex (InString []) rest
          else None
      | InString acc =>
          if n =? 34 then option_map (cons (Str acc)) (lex Between rest)
          else if n =? 92 then
            match rest with
            | String e rest1 =>
                if N_of_ascii e =? 117 then
                  match rest1 with
                  | String h1 (String h2 (String h3 (String h4 rest2))) =>
                      match hex4 h1 h2 h3 h4 with
                      | Some v =>
                          if is_high v then lex (AfterHigh acc v) rest2
                          else if is_low v then None
                          else lex (InString (acc ++ [v])) rest2
                      | None => None
                      end
                  | _ => None
                  end
                else
                  match unescape e with
                  | Some v => lex (InString (acc ++ [v])) rest1
                  | None => None
                  end
            | EmptyString => None
            end
          else if n <? 32 then None
          else if n <? 128 then lex (InString (acc ++ [n])) rest
          else if (0xC2 <=? n) && (n <=? 0xDF)
               then lex (InSequence acc 1 (n - 0xC0) 0x80) rest
          else if (0xE0 <=? n) && (n <=? 0xEF)
               then lex (InSequence acc 2 (n - 0xE0) 0x800) rest
          else if (0xF0 <=? n) && (n <=? 0xF4)
               then lex (InSequence acc 3 (n - 0xF0) 0x10000) rest
          else None
      | AfterHigh acc high =>
          if n =? 92 then
            match rest with
            | String u (String h1 (String h2 (String h3 (String h4 rest2)))) =>
                if N_of_ascii u =? 117 then
                  match hex4 h1 h2 h3 h4 with
                  | Some v =>
                      if is_low v
                      then lex (InString (acc ++ [pair_value high v])) rest2
                      else None
                  | None => None
                  end
                else None
            | _ => None
            end
          else None
      | InSequence acc remaining point least =>
          if (0x80 <=? n) && (n <=? 0xBF) then
            let point' := point * 64 + (n - 0x80) in
            match remaining with
            | O => None
            | S O =>
                if (least <=? point') && is_scalar point'
                then lex (InString (acc ++ [point'])) rest
                else None
            | S remaining' => lex (InSequence acc remaining' point' least) rest
            end
          else None
      end
  end.

(** Modelled from the spec: a value, and the members of an object after its
    opening brace, from a list of tokens; what follows the value is returned
    with it. [fuel] bounds the nesting and the number of members; [loads]
    gives more than any text needs. *)
Fixpoint parse_value (fuel : nat) (ts : list token) : option (value * list token) :=
  match fuel with
  | O => None
  | S fuel' =>
      match ts with
      | Str s :: rest => Some (Text s, rest)
      | LBrace :: RBrace :: rest => Some (Object [], rest)
      | LBrace :: rest =>
          match parse_members fuel' rest with
          | Some (fields, rest') => Some (Object fields, rest')
          | None => None
          end
      | _ => None
      end
  end
with parse_members (fuel : nat) (ts : list token)
  : option (list (str * value) * list token) :=
  match fuel with
  | O => None
  | S fuel' =>
      match ts with
      | Str k :: Colon :: rest =>
          match parse_value fuel' rest with
          | Some (v, Comma :: rest') =>
              match parse_members fuel' rest' with
              | Some (fields, rest'') => Some ((k, v) :: fields, rest'')
              | None => None
              end
          | Some (v, RBrace :: rest') => Some ([(k, v)], rest')
          | _ => None
          end
      | _ => None
      end
  end.

(** Modelled from the spec: JSON text to a value; the whole text is one
    value. *)
Definition loads (text : string) : option value :=
  match lex Between text with
  | Some ts =>
      match parse_value (S (length ts)) ts with
      | Some (v, []) => Some v
      | _ => None
      end
  | None => None
  end.

Fixpoint same_text (a b : str) : bool :=
  match a, b with
  | [], [] => true
  | x :: a', y :: b' => (x =? y) && same_text a' b'
  | _, _ => false
  end.

(** The member of an object with a given name. *)
Fixpoint member (key : str) (members : list (str * value)) : option value :=
  match members with
  | [] => None
  | (k, v) :: rest => if same_text k key then Some v else member key rest
  end.

(** The members of an object whose values are all strings. *)
Fixpoint string_items (fields : list (str * value)) : option (list (str * str)) :=
  match fields with
  | [] => Some []
  | (k, Text v) :: rest =>
      match string_items rest with
      | Some items => Some ((k, v) :: items)
      | None => None
      end
  | _ => None
  end.

(** Modelled from the spec: the request a decoded object stands for, its
    fields taken by name. *)
Definition to_request (v : value) : option Request :=
  match v with
  | Object members =>
      match member (of_string "id") members,
            member (of_string "method") members,
            member (of_string "params") members with
      | Some (Text i), Some (Text m), Some (Object ps) =>
          match string_items ps with
          | Some items => Some (mkRequest i m items)
          | None => None
          end
      | _, _, _ => None
      end
  | _ => None
  end.

(** The tokens [json.dumps] writes for the items of a dict of strings, and
    for a request. *)
Fixpoint item_tokens (items : list (str * str)) : list token :=
  match items with
  | [] => []
  | [(k, v)] => [Str k; Colon; Str v]
  | (k, v) :: rest => Str k :: Colon :: Str v :: Comma :: item_tokens rest
  end.

Definition request_tokens (r : Request) : list token :=
  LBrace :: Str (of_string "id") :: Colon :: Str (req_id r) :: Comma
    :: Str (of_string "method") :: Colon :: Str (req_method r) :: Comma
    :: Str (of_string "params") :: Colon :: LBrace
    :: item_tokens (req_params r) ++ [RBrace; RBrace].

(** The members a dict of strings decodes to. *)
Definition item_values (items : list (str * str)) : list (str * value) :=
  map (fun kv => (fst kv, Text (snd kv))) items.

(** Modelled from the spec: the stream up to its first line delimiter, and
    what follows it. *)
Fixpoint read_line (stream : string) : option (string * string) :=
  match stream with
  | EmptyString => None
  | String c rest =>
      if Ascii.eqb c Wire.newline then Some ("", rest)
      else match read_line rest with
           | Some (line, more) => Some (String c line, more)
           | None => None
           end
  end.

(** Modelled from the spec: [readMessage], one message off the stream: the
    request on its first line, and the rest of the stream. *)
Definition read_message (stream : string) : option (Request * string) :=
  match read_line stream with
  | Some (line, more) =>
      match loads line with
      | Some v =>
          match to_request v with
          | Some r => Some (r, more)
          | None => None
          end
      | None => None
      end
  | None => None
  end.

End Decode.

(** ** The singleton *)

(** [__new__] and [__init__] of [SwiftService], lines 60-78, with the state
    they read and write: the two class attributes, the objects created so
    far (an object is known by its number), the attributes of each object
    and the objects whose [_cleanup] is registered with [atexit]. *)
Module Singleton.

Record Program : Type := mkProgram {
  _instance : option nat;
  _initialized : bool;
  allocated : nat;
  attributes : list (nat * Service);
  atexit_hooks : list nat
}.

(** The module before line 410: the class is defined, nothing else. *)
Definition initial_program : Program := mkProgram None false 0 [] [].

(** The attributes of an object, [None] when none was assigned yet. *)
Fixpoint attributes_of (self : nat) (attrs : list (nat * Service)) : option Service :=
  match attrs with
  | [] => None
  | (o, s) :: rest => if Nat.eqb o self then Some s else attributes_of self rest
  end.

(** [def __new__(cls)]: the stored instance, created on first use. *)
Definition __new__ (p : Program) : nat * Program :=
  match _instance p with
  | None =>
      (allocated p,
       mkProgram (Some (allocated p)) (_initialized p) (S (allocated p))
                 (attributes p) (atexit_hooks p))
  | Some self => (self, p)
  end.

(** [def __init__(self)]: the fields are set and the hook registered only
    while the class attribute [_initialized] is [False]. *)
Definition __init__ (self : nat) (p : Program) : Program :=
  if negb (_initialized p) then
    mkProgram (_instance p) true (allocated p)
              ((self, mkService None None None) :: attributes p)
              (self :: atexit_hooks p)
  else p.

(** The call [SwiftService()]: [__new__], then [__init__] on its result. *)
Definition instantiate (p : Program) : nat * Program :=
  let (self, p1) := __new__ p in (self, __init__ self p1).

(** What a program does to this state: it calls [SwiftService()], or a
    method of an initialised object assigns the object's fields. *)
Inductive step : Program -> Program -> Prop :=
| step_instantiate (p : Program) :
    step p (snd (instantiate p))
| step_assign (p : Program) (self : nat) (old new : Service) :
    attributes_of self (attributes p) = Some old ->
    step p (mkProgram (_instance p) (_initialized p) (allocated p)
                      ((self, new) :: attributes p) (atexit_hooks p)).

Inductive reachable : Program -> Prop :=
| reachable_initial : reachable initial_program
| reachable_step (p q : Program) : reachable p -> step p q -> reachable q.

End Singleton.

(** ** The logger *)

(** [configure_logger], lines 367-403, on the root logger as [logging] keeps
    it: a level and a list of handlers. A handler is an object, known by its
    number; [removeHandler] and [addHandler] compare by identity. *)
Module Logging.

Inductive Level : Type :=
| NOTSET
| DEBUG
| INFO
| WARNING.

Inductive HandlerKind : Type :=
| StreamHandler
| OtherHandler
| TimedRotatingFileHandler (filename when : string) (interval backupCount : nat)
    (formatter : option string).

Record Handler : Type := mkHandler {
  ident : nat;
  kind : HandlerKind
}.

Record Logger : Type := mkLogger {
  level : Level;
  handlers : list Handler
}.

Definition same (h h' : Handler) : bool := Nat.eqb (ident h) (ident h').

(** [list.remove(h)]: without the first element that is [h]. *)
Fixpoint list_remove (h : Handler) (hs : list Handler) : list Handler :=
  match hs with
  | [] => []
  | h' :: rest => if same h h' then rest else h' :: list_remove h rest
  end.

(** [Logger.removeHandler]: [if hdlr in self.handlers: self.handlers.remove(hdlr)]. *)
Definition removeHandler (h : Handler) (lg : Logger) : Logger :=
  if existsb (same h) (handlers lg)
  then mkLogger (level lg) (list_remove h (handlers lg))
  else lg.

(** [Logger.addHandler]: [if not (hdlr in self.handlers): self.handlers.append(hdlr)]. *)
Definition addHandler (h : Handler) (lg : Logger) : Logger :=
  if existsb (same h) (handlers lg)
  then lg
  else mkLogger (level lg) (handlers lg ++ [h]).

Definition setLevel (l : Level) (lg : Logger) : Logger :=
  mkLogger l (handlers lg).

(** Lines 381-382: [while root_logger.handlers:
    root_logger.removeHandler(root_logger.handlers[0])], at most [fuel]
    rounds; [None] when the handlers are not gone by then. *)
Fixpoint remove_handlers (fuel : nat) (lg : Logger) : option Logger :=
  match handlers lg with
  | [] => Some lg
  | h :: _ =>
      match fuel with
      | O => None
      | S fuel' => remove_handlers fuel' (removeHandler h lg)
      end
  end.

Definition log_format : string :=
  "%(asctime)s - %(levelname)s - [ThreadId(%(thread)d)] %(filename)s:%(lineno)d: %(message)s".

(** The handler of lines 387-398, a new object numbered [fresh]. *)
Definition file_handler (fresh : nat) (log_file_path : string) : Handler :=
  mkHandler fresh
    (TimedRotatingFileHandler log_file_path "midnight" 1 30 (Some log_format)).

(** [def configure_logger(log_file_path)], with as many rounds for the loop
    as there are handlers. *)
Definition configure_logger (log_file_path : string) (fresh : nat) (root : Logger)
  : option Logger :=
  match remove_handlers (length (handlers root)) (setLevel DEBUG root) with
  | Some emptied => Some (addHandler (file_handler fresh log_file_path) emptied)
  | None => None
  end.

End Logging.

(** ** Concrete environments *)

(** A worker double behind a stream that behaves as an asyncio stream does:
    the lines written are answered in order, one reply per request; a
    stream that was closed refuses to drain ("Connection lost"); once a read
    failed, the error stays on the stream and [drain] raises it again. The
    faults a scenario needs are switched on by the arguments. *)
Module Scenario.

Definition is_close_of (c : Conn) (ev : Event) : bool :=
  match ev with EvClose c' => Nat.eqb c c' | _ => false end.

(** The lines written so far, oldest first. *)
Definition written (t : list Event) : list string :=
  flat_map (fun ev => match ev with EvWrite _ data => [data] | _ => [] end) (rev t).

Definition closed (c : Conn) (t : list Event) : bool :=
  existsb (is_close_of c) t.

Definition connection_lost : exn := OtherException "Connection lost".

Definition show_exn (e : exn) : string :=
  match e with
  | ProcessLookupError => "[Errno 3] No such process"
  | TimeoutExpired => "timed out after 2 seconds"
  | JSONDecodeError msg => msg
  | McpError d => message d
  | KeyError key => ("'" ++ key ++ "'")%string
  | TypeError => "TypeError"
  | AttributeError => "AttributeError"
  | OtherException what => what
  end.

(** [json.loads] on the finitely many lines a scenario's worker sends. *)
Fixpoint loads_table (table : list (string * pyval)) (line : string) : outcome pyval :=
  match table with
  | [] => Raise (JSONDecodeError "Expecting value: line 1 column 1 (char 0)")
  | (l, v) :: rest => if l =? line then Ok v else loads_table rest line
  end.

Definition make_env
  (worker : string -> string)
  (table : list (string * pyval))
  (read_fault : option exn)
  (close_fault : option exn) : Env :=
  {| popen := fun t => Ok (100 + count is_popen t);
     open_connection := fun t => Ok (1 + count is_open_connection t);
     id_of_params := fun t => NilZero.string_of_uint (Nat.to_uint (4000 + length t));
     write := fun _ _ _ => Ok tt;
     drain := fun t c =>
       if closed c t then Raise connection_lost
       else match read_fault with
            | Some e => if existsb is_readline t then Raise e else Ok tt
            | None => Ok tt
            end;
     readline := fun t c =>
       match read_fault with
       | Some e => Raise e
       | None =>
           match nth_error (written t) (count is_readline t) with
           | Some request_line => Ok (worker request_line)
           | None => Ok ""
           end
       end;
     close := fun _ _ => Ok tt;
     wait_closed := fun _ _ =>
       match close_fault with
       | Some e => Raise e
       | None => Ok tt
       end;
     getpgid := fun _ p => Some p;
     killpg := fun _ _ _ => true;
     wait := fun _ _ => true;
     exn_str := show_exn;
     py_repr := fun _ => "<repr>";
     list_repr := fun xs =>
       ("[" ++ String.concat ", " (map (fun x => "'" ++ x ++ "'") xs) ++ "]")%string;
     json_loads := loads_table table |}.

(** The line [{"result": text}] and the value [json.loads] reads from it. *)
Definition result_line (text : string) : string :=
  Wire.dumps_dict [("result", text)] ++ String Wire.newline "".

Definition result_value (text : string) : pyval :=
  PyDict [("result", PyStr text)].

(** The line [{"result": true}]. *)
Definition true_line : string :=
  "{" ++ Wire.dumps_str "result" ++ ": true}" ++ String Wire.newline "".

(** A worker that answers a request by naming the tool it was for, and
    [is_available] by [true]. *)
Definition naming_worker (request_line : string) : string :=
  if is_substring "symbol_occurrences" request_line then result_line "symbols"
  else if is_substring "search_pattern" request_line then result_line "matches"
  else if is_substring "is_available" request_line then true_line
  else result_line "other".

Definition naming_table : list (string * pyval) :=
  [(result_line "symbols", result_value "symbols");
   (result_line "matches", result_value "matches");
   (true_line, PyDict [("result", PyBool true)]);
   (result_line "other", result_value "other")].

(** Everything works. *)
Definition healthy : Env := make_env naming_worker naming_table None None.

(** The connection drops: every read is reset. *)
Definition dropped : Env :=
  make_env naming_worker naming_table
    (Some (OtherException "[Errno 54] Connection reset by peer")) None.

(** Closing the stream fails. *)
Definition close_fails : Env :=
  make_env naming_worker naming_table None
    (Some (OtherException "[Errno 32] Broken pipe")).

(** The worker rejects the parameters inside its result:
    [{"result": {"error": text}}], decoded to a dict in a dict. *)
Definition rejecting_line : string := "<result with an embedded error>".

Definition rejecting (embedded : pyval) : Env :=
  make_env (fun _ => rejecting_line)
    [(rejecting_line, PyDict [("result", PyDict [("error", embedded)])])]
    None None.

(** The worker cannot be spawned: the executable is missing. *)
Definition no_executable : Env :=
  {| popen := fun _ => Raise (OtherException "[Errno 2] No such file or directory");
     open_connection := open_connection healthy;
     id_of_params := id_of_params healthy;
     write := write healthy;
     drain := drain healthy;
     readline := readline healthy;
     close := close healthy;
     wait_closed := wait_closed healthy;
     getpgid := getpgid healthy;
     killpg := killpg healthy;
     wait := wait healthy;
     exn_str := show_exn;
     py_repr := py_repr healthy;
     list_repr := list_repr healthy;
     json_loads := json_loads healthy |}.

(** The worker is spawned but does not listen yet: the first connection is
    refused, the next one accepted. *)
Definition slow_worker : Env :=
  {| popen := popen healthy;
     open_connection := fun t =>
       if Nat.eqb (count is_open_connection t) 0
       then Raise (OtherException "[Errno 61] Connection refused")
       else Ok (count is_open_connection t);
     id_of_params := id_of_params healthy;
     write := write healthy;
     drain := drain healthy;
     readline := readline healthy;
     close := close healthy;
     wait_closed := wait_closed healthy;
     getpgid := getpgid healthy;
     killpg := killpg healthy;
     wait := wait healthy;
     exn_str := show_exn;
     py_repr := py_repr healthy;
     list_repr := list_repr healthy;
     json_loads := json_loads healthy |}.

(** A worker whose answers are not what the bridge expects: a JSON list, an
    object without "result", and text that is no JSON. *)
Definition list_line : string := "[1]".
Definition no_result_line : string := "<object with an id only>".
Definition garbage_line : string := "<html>".

Definition odd_worker (line : string) : Env :=
  make_env (fun _ => line)
    [(list_line, PyList [PyInt 1]);
     (no_result_line, PyDict [("id", PyStr "4003")])]
    None None.

(** A service that is started and connected: process 100, connection 1. *)
Definition connected_world : World :=
  mkWorld (mkService (Some 1) (Some 1) (Some 100))
    [EvOpenConnection host port; EvSleep 2; EvPopen].

(** A session: a first call on the fresh service, then [stop]. *)
Definition first_call : M pyval :=
  SwiftService.send_request healthy "is_available" [("projectName", "App")].

Definition after_first_call : World := snd (first_call initial_world).

Definition after_stop : World := snd (SwiftService.stop healthy after_first_call).

(** A session on a connection that drops: the world after the call that
    hit the drop. *)
Definition drop_call : M pyval :=
  SwiftService.send_request dropped "search_pattern" [("pattern", "main")].

Definition after_drop : World := snd (drop_call connected_world).

(** Two calls on the connected service, not yet run. *)
Definition two_calls : list Concurrent.call * World :=
  ([Concurrent.Pending "symbol_occurrences" [("filePath", "/a.swift"); ("lineNumber", "7")];
    Concurrent.Pending "search_pattern" [("pattern", "main")]],
   connected_world).

(** Requests with text beyond ASCII, for [search_pattern]. The first
    pattern holds a CJK character, an emoji, a quote, a line feed, an
    accented letter and DEL, and is also given in two parts; the second is
    one emoji, U+1F600; the third is the two surrogates U+D83D U+DE00, two
    code points of a Python [str]. *)
Definition text_request (pattern : Unicode.str) : Unicode.Request :=
  Unicode.mkRequest (Unicode.of_string "4003") (Unicode.of_string "search_pattern")
    [(Unicode.of_string "pattern", pattern)].

Definition mixed_pattern : Unicode.str := [0x4E2D; 0x1F600; 34; 10; 0xE9; 0x7F]%N.

Definition emoji_first : Unicode.str := [0x4E2D; 0x1F600]%N.

Definition after_emoji : Unicode.str := [34; 10; 0xE9; 0x7F]%N.

Definition emoji : Unicode.str := [0x1F600]%N.

Definition surrogates : Unicode.str := [0xD83D; 0xDE00]%N.

End Scenario.

(** * Properties *)

(** ** Computations and the service *)

Section Facts.
Context (E : Env).
Import SwiftService.

Lemma world_eta (w : World) : mkWorld (service w) (trace w) = w.
Proof. destruct w; reflexivity. Qed.

Lemma service_eta (s : Service) :
  mkService (reader s) (writer s) (swift_process s) = s.
Proof. destruct s; reflexivity. Qed.

(** With a process and both streams stored, [ensure_connected] does
    nothing: no effect, no change, no exception. *)
Lemma ensure_connected_noop (w : World) (c : Conn) :
  connected w c -> ensure_connected E w = (Ok tt, w).
Proof.
  intros (r & p & Hs).
  unfold ensure_connected, bind, get_service.
  rewrite Hs; reflexivity.
Qed.

(** The first segment of an exchange writes the encoded request, once, and
    leaves the fields of the service alone. *)
Lemma exchange_send_writes (m : string) (ps : list (string * string))
  (w : World) (c : Conn) :
  writer (service w) = Some c ->
  let line := Wire.encode (mkRequest (id_of_params E (trace w)) m ps) in
  service (snd (exchange_send E m ps w)) = service w /\
  (trace (snd (exchange_send E m ps w)) = EvWrite c line :: trace w \/
   trace (snd (exchange_send E m ps w)) = EvDrain c :: EvWrite c line :: trace w).
Proof.
  intros Hw line; subst line.
  unfold exchange_send, bind, the_stream, get_service, effect; cbn.
  rewrite Hw; cbn.
  destruct (write E (trace w) c _); cbn; auto.
Qed.

(** The second segment reads one line and leaves the fields alone. *)
Lemma exchange_receive_reads (w : World) (c : Conn) :
  reader (service w) = Some c ->
  service (snd (exchange_receive E w)) = service w /\
  trace (snd (exchange_receive E w)) = EvReadline c :: trace w.
Proof.
  intros Hr.
  unfold exchange_receive, bind, the_stream, get_service, effect, lift; cbn.
  rewrite Hr; cbn.
  destruct (readline E (trace w) c) as [data | e]; cbn; auto.
  destruct (json_loads E data) as [response | e]; cbn; auto.
Qed.

(** The handlers of [send_request] only translate the exception. *)
Lemma send_request_handler_world (A : Type) (e : exn) (w : World) :
  snd (@send_request_handler E A e w) = w.
Proof. destruct e; reflexivity. Qed.

Lemma send_request_handler_raises (A : Type) (e : exn) (w : World) :
  exists text,
    @send_request_handler E A e w
    = (Raise (McpError (mkErrorData INTERNAL_ERROR text)), w).
Proof. destruct e; eexists; reflexivity. Qed.

Lemma tool_handler_world (A : Type) (prefix : string) (e : exn) (w : World) :
  snd (@tool_handler E A prefix e w) = w.
Proof. destruct e; reflexivity. Qed.

Lemma try_except_world (A : Type) (body : M A) (h : exn -> M A) (w : World) :
  (forall e w', snd (h e w') = w') ->
  snd (try_except body h w) = snd (body w).
Proof.
  intros Hh. unfold try_except.
  destruct (body w) as [[a | e] w']; cbn; auto.
Qed.

(** On a connected service a call puts its request on the wire first: the
    encoded line with the method and the parameters it was given. *)
Lemma send_request_writes_request (m : string) (ps : list (string * string))
  (w : World) (c : Conn) :
  connected w c ->
  exists later,
    trace (snd (send_request E m ps w))
    = later ++ EvWrite c (Wire.encode (mkRequest (id_of_params E (trace w)) m ps))
            :: trace w.
Proof.
  intros Hc.
  unfold send_request, bind.
  rewrite (ensure_connected_noop w c Hc).
  rewrite try_except_world by apply send_request_handler_world.
  destruct Hc as (r & p & Hs).
  assert (Hw : writer (service w) = Some c) by (rewrite Hs; reflexivity).
  destruct (exchange_send_writes m ps w c Hw) as [Hsvc Htr].
  unfold exchange, bind.
  destruct (exchange_send E m ps w) as [[[] | e] w1] eqn:Hsend; cbn in *.
  - assert (Hr : reader (service w1) = Some r) by (rewrite Hsvc, Hs; reflexivity).
    destruct (exchange_receive_reads w1 r Hr) as [_ Hrd].
    rewrite Hrd.
    destruct Htr as [-> | ->].
    + exists [EvReadline r]; reflexivity.
    + exists [EvReadline r; EvDrain c]; reflexivity.
  - destruct Htr as [-> | ->].
    + exists []; reflexivity.
    + exists [EvDrain c]; reflexivity.
Qed.

End Facts.

(** ** Validation in the tools *)

Section ToolFacts.
Context (E : Env).
Import SwiftService.

Lemma str_in_spec (x : string) (xs : list string) :
  str_in x xs = true <-> In x xs.
Proof.
  unfold str_in. rewrite existsb_exists. split.
  - intros (y & Hy & Heq). apply String.eqb_eq in Heq. now subst.
  - intros Hin. exists x. split; [assumption | apply String.eqb_refl].
Qed.

Lemma not_allowed_nil (allowed xs : list string) :
  not_allowed allowed xs = [] <-> (forall x, In x xs -> In x allowed).
Proof.
  unfold not_allowed. induction xs as [| x xs IH]; cbn.
  - split; [intros _ y [] | reflexivity].
  - destruct (str_in x allowed) eqn:Hx; cbn.
    + rewrite IH. apply str_in_spec in Hx. split.
      * intros H y [<- | Hy]; auto.
      * intros H y Hy; apply H; now right.
    + split; [discriminate |].
      intros H. assert (Hin : In x allowed) by (apply H; now left).
      apply str_in_spec in Hin. congruence.
Qed.

Lemma not_allowed_some (allowed xs : list string) (x : string) :
  In x xs -> ~ In x allowed ->
  exists y ys, not_allowed allowed xs = y :: ys.
Proof.
  intros Hin Hout.
  destruct (not_allowed allowed xs) as [| y ys] eqn:Hna.
  - exfalso. apply Hout. now apply (proj1 (not_allowed_nil allowed xs) Hna).
  - now exists y, ys.
Qed.

Lemma dispatched_writes_request (prefix m : string) (ps : list (string * string))
  (w : World) (c : Conn) :
  connected w c ->
  exists later,
    trace (snd (dispatched E prefix m ps w))
    = later ++ EvWrite c (Wire.encode (mkRequest (id_of_params E (trace w)) m ps))
            :: trace w.
Proof.
  intros Hc. unfold dispatched.
  rewrite try_except_world by (intros; apply tool_handler_world).
  now apply send_request_writes_request.
Qed.

(** C5. [get_occurrences] and its list of roles. When some role is neither
    "reference" nor "definition" the tool raises [McpError] with code
    [INVALID_PARAMS] and the world is the one it was called in: no effect was
    performed, so nothing was written to the worker and none was started.
    When every role is one of the two, the tool is the dispatch of method
    "get_occurrences" with [usr] and the roles joined by commas, the list
    itself untouched; on a connected service the line written to the worker
    is the encoding of exactly that request. *)
Theorem get_occurrences_validates_roles
  (usr : string) (roles : list string) (w : World) :
  ((exists r, In r roles /\ r <> "reference" /\ r <> "definition") ->
   exists text,
     get_occurrences E usr roles w
     = (Raise (McpError (mkErrorData INVALID_PARAMS text)), w))
  /\
  ((forall r, In r roles -> r = "reference" \/ r = "definition") ->
   let params := [("usr", usr); ("roles", String.concat "," roles)] in
   get_occurrences E usr roles w
   = dispatched E "Failed to get symbol occurrences: " "get_occurrences" params w
   /\
   forall c, connected w c ->
     exists later,
       trace (snd (get_occurrences E usr roles w))
       = later
         ++ EvWrite c (Wire.encode
                         (mkRequest (id_of_params E (trace w)) "get_occurrences" params))
         :: trace w).
Proof.
  split.
  - intros (r & Hin & Hr1 & Hr2).
    assert (Hout : ~ In r valid_roles).
    { cbn. intros [H | [H | []]]; congruence. }
    destruct (not_allowed_some valid_roles roles r Hin Hout) as (y & ys & Hna).
    unfold get_occurrences, try_except. cbn zeta. rewrite Hna.
    eexists. reflexivity.
  - intros Hall params.
    assert (Hna : not_allowed valid_roles roles = []).
    { apply not_allowed_nil. intros x Hx.
      destruct (Hall x Hx) as [-> | ->]; cbn; auto. }
    assert (Heq : get_occurrences E usr roles w
                  = dispatched E "Failed to get symbol occurrences: "
                      "get_occurrences" params w).
    { unfold get_occurrences, dispatched. cbn zeta. rewrite Hna. reflexivity. }
    split; [exact Heq |].
    intros c Hc. rewrite Heq. now apply dispatched_writes_request.
Qed.


(** [True] is an instance of [int] worth 1: it passes the test of line 260
    and goes out under its own name. *)
Remark symbol_occurrences_true (filePath : string) (w : World) :
  symbol_occurrences E filePath (PyBool true) w
  = dispatched E "Failed to get symbol occurrences: " "symbol_occurrences"
      [("filePath", filePath); ("lineNumber", "True")] w.
Proof. reflexivity. Qed.

(** [search_pattern] and its options. An option outside the four names is
    refused with [McpError] of code [INVALID_PARAMS] in the world the tool
    was called in. Options that are all valid are joined by commas and
    dispatched with the pattern; with no options, [None] or an empty list,
    the pattern is dispatched alone. *)
Theorem search_pattern_validates_options
  (pattern : string) (options : list string) (w : World) :
  ((exists o, In o options /\ ~ In o valid_options) ->
   exists text,
     search_pattern E pattern (Some options) w
     = (Raise (McpError (mkErrorData INVALID_PARAMS text)), w))
  /\
  ((forall o, In o options -> In o valid_options) -> options <> [] ->
   search_pattern E pattern (Some options) w
   = dispatched E "Failed to search pattern: " "search_pattern"
       [("pattern", pattern); ("options", String.concat "," options)] w)
  /\
  search_pattern E pattern None w
  = dispatched E "Failed to search pattern: " "search_pattern"
      [("pattern", pattern)] w
  /\
  search_pattern E pattern (Some []) w
  = dispatched E "Failed to search pattern: " "search_pattern"
      [("pattern", pattern)] w.
Proof.
  split; [| split; [| split; reflexivity]].
  - intros (o & Hin & Hout).
    destruct options as [| o1 os]; [destruct Hin |].
    destruct (not_allowed_some valid_options (o1 :: os) o Hin Hout)
      as (y & ys & Hna).
    unfold search_pattern, try_except. cbn zeta. rewrite Hna.
    eexists. reflexivity.
  - intros Hall Hne.
    destruct options as [| o1 os]; [now destruct Hne |].
    assert (Hna : not_allowed valid_options (o1 :: os) = [])
      by now apply not_allowed_nil.
    unfold search_pattern, dispatched. cbn zeta. rewrite Hna. reflexivity.
Qed.

End ToolFacts.

(** ** Stopping the worker *)

Section StopFacts.
Context (E : Env).
Import SwiftService.

(** The forceful kill never raises: "not found" is passed over. *)
Lemma sigkill_fallback (p : Pid) (w : World) :
  try_except (signal_group E p SIGKILL)
    (fun e' => match e' with ProcessLookupError => ret tt | _ => raise e' end) w
  = (Ok tt, mkWorld (service w) (sigkill_events E p (trace w) ++ trace w)).
Proof.
  unfold try_except, signal_group, bind, effect, sigkill_events, ret; cbn.
  destruct (getpgid E (trace w) p) as [g |]; cbn; [| reflexivity].
  destruct (killpg E _ g SIGKILL); reflexivity.
Qed.

(** The block returns normally whatever the operating system answers, and
    forgets the process. *)
Lemma terminate_process_some (p : Pid) (w : World) :
  swift_process (service w) = Some p ->
  terminate_process E w
  = (Ok tt,
     mkWorld (mkService (reader (service w)) (writer (service w)) None)
             (terminate_events E p (trace w) ++ trace w)).
Proof.
  intros Hp.
  unfold terminate_process, bind at 1, get_service at 1. rewrite Hp.
  unfold bind at 1.
  unfold try_except at 1, signal_group at 1, wait_process, bind, effect,
    terminate_events; cbn.
  destruct (getpgid E (trace w) p) as [g |]; cbn.
  - destruct (killpg E _ g SIGTERM); cbn.
    + destruct (wait E _ p); cbn.
      * reflexivity.
      * rewrite sigkill_fallback; cbn.
        unfold get_service, set_service; cbn.
        now rewrite <- app_assoc.
    + rewrite sigkill_fallback; cbn.
      unfold get_service, set_service; cbn.
      now rewrite <- app_assoc.
  - rewrite sigkill_fallback; cbn.
    unfold get_service, set_service; cbn.
    now rewrite <- app_assoc.
Qed.

Lemma terminate_process_none (w : World) :
  swift_process (service w) = None -> terminate_process E w = (Ok tt, w).
Proof.
  intros Hp. unfold terminate_process, bind, get_service. now rewrite Hp.
Qed.

Lemma terminate_process_ok (w : World) :
  fst (terminate_process E w) = Ok tt /\
  swift_process (service (snd (terminate_process E w))) = None /\
  reader (service (snd (terminate_process E w))) = reader (service w) /\
  writer (service (snd (terminate_process E w))) = writer (service w).
Proof.
  destruct (swift_process (service w)) as [p |] eqn:Hp.
  - rewrite (terminate_process_some p w Hp); cbn; auto.
  - rewrite (terminate_process_none w Hp); cbn; auto.
Qed.




(** Closing the writer touches no field of the service, and its events are
    the two of closing a stream. *)
Lemma close_writer_spec (w : World) :
  service (snd (close_writer E w)) = service w /\
  exists closing,
    trace (snd (close_writer E w)) = closing ++ trace w /\
    forallb is_close_event closing = true /\
    (writer (service w) = None -> closing = []).
Proof.
  unfold close_writer, bind, get_service, effect; cbn.
  destruct (writer (service w)) as [c |]; cbn.
  - destruct (close E (trace w) c); cbn.
    + split; [reflexivity |].
      exists [EvWaitClosed c; EvClose c]; repeat split; discriminate.
    + split; [reflexivity |].
      exists [EvClose c]; repeat split; discriminate.
  - split; [reflexivity |]. exists []; auto.
Qed.

(** [stop] is the block that stops the process, run after a close that
    returned; a close that raised is all of [stop]. *)
Lemma stop_unfold (w : World) :
  stop E w
  = match close_writer E w with
    | (Ok _, w1) => terminate_process E w1
    | (Raise e, w1) => (Raise e, w1)
    end.
Proof. reflexivity. Qed.

(** C7, as the code has it. [stop] and [_cleanup] with no worker stored
    send no signal: [_cleanup] does nothing at all, [stop] does nothing when
    no writer is stored either, and otherwise only closes the stored writer
    again. When a worker is stored, [_cleanup] always returns normally with
    the process forgotten, whatever signalling answers ("not found" is no
    error), and [stop] does so whenever closing the writer returned: it then
    continues exactly as [_cleanup]. After a SIGTERM that was delivered and
    a wait that timed out, the group is looked up again and sent SIGKILL. *)
Theorem stop_clears_process_after_close (w : World) :
  (swift_process (service w) = None -> writer (service w) = None ->
   stop E w = (Ok tt, w))
  /\
  (swift_process (service w) = None ->
   _cleanup E w = (Ok tt, w) /\ stop E w = close_writer E w)
  /\
  (fst (_cleanup E w) = Ok tt /\
   swift_process (service (snd (_cleanup E w))) = None)
  /\
  (fst (close_writer E w) = Ok tt ->
   stop E w = _cleanup E (snd (close_writer E w)) /\
   fst (stop E w) = Ok tt /\
   swift_process (service (snd (stop E w))) = None)
  /\
  (forall p g g',
     swift_process (service w) = Some p ->
     getpgid E (trace w) p = Some g ->
     killpg E (EvGetpgid p :: trace w) g SIGTERM = true ->
     let waited := EvKillpg g SIGTERM :: EvGetpgid p :: trace w in
     wait E waited p = false ->
     getpgid E (EvWait p 2 :: waited) p = Some g' ->
     trace (snd (_cleanup E w))
     = EvKillpg g' SIGKILL :: EvGetpgid p :: EvWait p 2 :: waited).
Proof.
  repeat split.
  - intros Hp Hw. rewrite stop_unfold.
    unfold close_writer, bind, get_service. rewrite Hw. cbn.
    now apply terminate_process_none.
  - now apply terminate_process_none.
  - rewrite stop_unfold.
    destruct (close_writer_spec w) as [Hs _].
    destruct (close_writer E w) as [[[] | e] w1]; cbn in *; [| reflexivity].
    apply terminate_process_none. now rewrite Hs.
  - apply terminate_process_ok.
  - apply terminate_process_ok.
  - rewrite stop_unfold.
    destruct (close_writer E w) as [[[] | e] w1]; cbn in *; [reflexivity | discriminate].
  - rewrite stop_unfold.
    destruct (close_writer E w) as [[[] | e] w1]; cbn in *; [| discriminate].
    apply terminate_process_ok.
  - rewrite stop_unfold.
    destruct (close_writer E w) as [[[] | e] w1]; cbn in *; [| discriminate].
    apply terminate_process_ok.
  - intros p g g' Hp Hg Hk waited Hwait Hg'. subst waited.
    unfold _cleanup. rewrite (terminate_process_some p w Hp). cbn.
    unfold terminate_events. rewrite Hg, Hk, Hwait.
    unfold sigkill_events. rewrite Hg'. reflexivity.
Qed.


End StopFacts.

(** ** The dispatcher *)

Section DispatchFacts.
Context (E : Env).
Import SwiftService.

Lemma send_request_connected (m : string) (ps : list (string * string))
  (w : World) (c : Conn) :
  connected w c ->
  send_request E m ps w
  = try_except (exchange E m ps) (@send_request_handler E pyval) w.
Proof.
  intros Hc. unfold send_request, bind.
  now rewrite (ensure_connected_noop E w c Hc).
Qed.

(** An exchange on a connected service writes once and touches no field. *)
Lemma exchange_frame (m : string) (ps : list (string * string))
  (w : World) (c : Conn) :
  connected w c ->
  service (snd (exchange E m ps w)) = service w /\
  count is_write (trace (snd (exchange E m ps w))) = S (count is_write (trace w)).
Proof.
  intros (r & p & Hs).
  assert (Hw : writer (service w) = Some c) by (rewrite Hs; reflexivity).
  destruct (exchange_send_writes E m ps w c Hw) as [Hsvc Htr].
  unfold exchange, bind.
  destruct (exchange_send E m ps w) as [[[] | e] w1]; cbn in *.
  - assert (Hr : reader (service w1) = Some r) by (rewrite Hsvc, Hs; reflexivity).
    destruct (exchange_receive_reads E w1 r Hr) as [Hs2 Ht2].
    rewrite Hs2, Ht2, Hsvc. split; [reflexivity |].
    unfold count. destruct Htr as [-> | ->]; reflexivity.
  - split; [assumption |].
    unfold count. destruct Htr as [-> | ->]; reflexivity.
Qed.

(** Whatever goes wrong inside the [try] of [send_request] leaves it as an
    [McpError] of code [INTERNAL_ERROR]: the handler of line 213 catches
    every [Exception], the [McpError]s of lines 186 and 196 among them. *)
Theorem send_request_raises_internal (m : string) (ps : list (string * string))
  (w : World) (c : Conn) (e : exn) :
  connected w c ->
  fst (send_request E m ps w) = Raise e ->
  exists text, e = McpError (mkErrorData INTERNAL_ERROR text).
Proof.
  intros Hc. rewrite (send_request_connected m ps w c Hc).
  unfold try_except.
  destruct (exchange E m ps w) as [[v | e0] w1]; cbn; [discriminate |].
  destruct (send_request_handler_raises E pyval e0 w1) as [text ->]; cbn.
  intros [= <-]. now exists text.
Qed.

(** C4, as the code has it. A call on a connected service whose exchange
    raises [e] (an I/O error of the write, the drain or the read; anything
    but a decoding error) fails with [McpError], code [INTERNAL_ERROR],
    message "Swift service error: " and the text of [e]. It was not retried:
    the call wrote once. The failure invalidates nothing: process and stream
    handles are stored as before, so the next [ensure_connected] does
    nothing at all, neither restart nor reconnect, and the next exchange
    runs on the same streams. *)
Theorem failed_exchange_keeps_connection
  (m : string) (ps : list (string * string)) (w : World) (c : Conn) (e : exn) :
  connected w c ->
  fst (exchange E m ps w) = Raise e ->
  (forall msg, e <> JSONDecodeError msg) ->
  fst (send_request E m ps w)
  = Raise (McpError (mkErrorData INTERNAL_ERROR
                       ("Swift service error: " ++ exn_str E e)))
  /\ count is_write (trace (snd (send_request E m ps w)))
     = S (count is_write (trace w))
  /\ service (snd (send_request E m ps w)) = service w
  /\ ensure_connected E (snd (send_request E m ps w))
     = (Ok tt, snd (send_request E m ps w)).
Proof.
  intros Hc Hraise Hnot.
  destruct (exchange_frame m ps w c Hc) as [Hsvc Hcount].
  rewrite (send_request_connected m ps w c Hc).
  unfold try_except.
  destruct (exchange E m ps w) as [[v | e0] w1]; cbn in *; [discriminate |].
  injection Hraise as ->.
  assert (Hh : @send_request_handler E pyval e w1
               = (Raise (McpError (mkErrorData INTERNAL_ERROR
                                     ("Swift service error: " ++ exn_str E e))), w1)).
  { destruct e; try reflexivity. now destruct (Hnot msg). }
  rewrite Hh; cbn.
  repeat split; try assumption.
  apply (ensure_connected_noop E w1 c).
  destruct Hc as (r & p & Hs). exists r, p. now rewrite Hsvc.
Qed.

(** When [ensure_connected] returns, a worker process and both stream
    handles are stored: the exchange that follows finds a writer and a
    reader to call. *)
Theorem ensure_connected_establishes (w : World) :
  fst (ensure_connected E w) = Ok tt ->
  exists c, connected (snd (ensure_connected E w)) c.
Proof.
  destruct w as [[rd wr sp] t].
  unfold ensure_connected, start, connect, bind, get_service, effect,
    set_service, try_except, internal_error, raise, ret, connected; cbn.
  destruct sp as [p |]; cbn.
  - destruct rd as [r |]; cbn.
    + destruct wr as [c |]; cbn.
      * intros _. now exists c, r, p.
      * destruct (open_connection E t) as [c |]; cbn; [| discriminate].
        intros _. now exists c, c, p.
    + destruct (open_connection E t) as [c |]; cbn; [| discriminate].
      intros _. now exists c, c, p.
  - destruct (popen E t) as [p |]; cbn; [| discriminate].
    destruct rd as [r |]; cbn.
    + destruct wr as [c |]; cbn.
      * intros _. now exists c, r, p.
      * destruct (open_connection E _) as [c |]; cbn; [| discriminate].
        intros _. now exists c, c, p.
    + destruct (open_connection E _) as [c |]; cbn; [| discriminate].
      intros _. now exists c, c, p.
Qed.

(** [stop] leaves both stream handles stored. *)
Lemma stop_keeps_streams (w : World) :
  reader (service (snd (stop E w))) = reader (service w) /\
  writer (service (snd (stop E w))) = writer (service w).
Proof.
  rewrite stop_unfold.
  destruct (close_writer_spec E w) as [Hs _].
  destruct (close_writer E w) as [[[] | e] w1]; cbn in *.
  - destruct (terminate_process_ok E w1) as (_ & _ & Hr & Hw).
    rewrite <- Hs. now split.
  - now rewrite Hs.
Qed.

(** With both handles stored and no process, [ensure_connected] starts a
    worker and opens no connection: [connect], called by [start], finds the
    handles set and returns. *)
Theorem restart_opens_no_connection (w : World) (r c : Conn) :
  service w = mkService (Some r) (Some c) None ->
  ensure_connected E w
  = match popen E (trace w) with
    | Ok p => (Ok tt, mkWorld (mkService (Some r) (Some c) (Some p))
                              (EvSleep 2 :: EvPopen :: trace w))
    | Raise e => (Raise e, mkWorld (service w) (EvPopen :: trace w))
    end.
Proof.
  destruct w as [s t]; cbn. intros ->.
  unfold ensure_connected, start, connect, bind, get_service, effect,
    set_service; cbn.
  destruct (popen E t); reflexivity.
Qed.

(** A response with a truthy top-level "error". *)
Lemma check_response_top_error (fields : list (string * pyval)) (e : pyval) :
  dict_get "error" fields = Some e -> py_truthy e = true ->
  check_response E (PyDict fields)
  = Raise (McpError (mkErrorData INTERNAL_ERROR (py_str E e))).
Proof.
  intros He Ht. unfold check_response; cbn.
  unfold dict_has. rewrite He; cbn. now rewrite Ht.
Qed.

(** Past the test of line 184 the result is looked at. *)
Lemma check_response_result (fields : list (string * pyval)) (result : pyval) :
  no_top_error fields ->
  dict_get "result" fields = Some result ->
  check_response E (PyDict fields)
  = match result with
    | PyDict inner =>
        match dict_get "error" inner with
        | Some e => Raise (McpError (mkErrorData INVALID_PARAMS (py_str E e)))
        | None => Ok result
        end
    | _ => Ok result
    end.
Proof.
  unfold no_top_error. intros Hno Hres.
  unfold check_response; cbn. unfold dict_has.
  destruct (dict_get "error" fields) as [e |]; cbn.
  - rewrite Hno; cbn. rewrite Hres; cbn.
    destruct result; try reflexivity.
    cbn. unfold dict_has. destruct (dict_get "error" fields0); reflexivity.
  - rewrite Hres; cbn.
    destruct result; try reflexivity.
    cbn. unfold dict_has. destruct (dict_get "error" fields0); reflexivity.
Qed.

(** The check of a response raises no decoding error, so what it raises
    goes to the handler of line 213. *)
Lemma check_response_handled (response : pyval) (e : exn) (w : World) :
  check_response E response = Raise e ->
  @send_request_handler E pyval e w
  = (Raise (McpError (mkErrorData INTERNAL_ERROR
                        ("Swift service error: " ++ exn_str E e))), w).
Proof.
  intros H.
  assert (Hnot : forall msg, e <> JSONDecodeError msg).
  { intros msg ->. revert H. unfold check_response.
    destruct response; cbn; try discriminate.
    - destruct (is_substring "error" s); discriminate.
    - destruct (existsb (eq_str "error") items); discriminate.
    - unfold dict_has.
      destruct (dict_get "error" fields) as [e0 |]; cbn.
      + destruct (py_truthy e0); cbn; [discriminate |].
        destruct (dict_get "result" fields) as [res |]; cbn; [| discriminate].
        destruct res; cbn; try discriminate.
        unfold dict_has.
        destruct (dict_get "error" fields0); cbn; discriminate.
      + destruct (dict_get "result" fields) as [res |]; cbn; [| discriminate].
        destruct res; cbn; try discriminate.
        unfold dict_has.
        destruct (dict_get "error" fields0); cbn; discriminate. }
  destruct e; try reflexivity. now destruct (Hnot msg).
Qed.

(** What a call on a connected service makes of the worker's answer: the
    result of the check, an exception of the check wrapped by the handler
    of line 213. *)
Lemma send_request_checks_response (m : string) (ps : list (string * string))
  (w : World) (c : Conn) (response : pyval) :
  connected w c ->
  replies_with E m ps w response ->
  fst (send_request E m ps w)
  = match check_response E response with
    | Ok v => Ok v
    | Raise e =>
        Raise (McpError (mkErrorData INTERNAL_ERROR
                           ("Swift service error: " ++ exn_str E e)))
    end.
Proof.
  intros Hc (w1 & r & line & Hsend & Hr & Hline & Hloads).
  rewrite (send_request_connected m ps w c Hc).
  unfold try_except, exchange, bind. rewrite Hsend.
  unfold exchange_receive, bind, the_stream, get_service, effect, lift; cbn.
  rewrite Hr; cbn. rewrite Hline, Hloads; cbn.
  destruct (check_response E response) as [v | e] eqn:Hcheck; [reflexivity |].
  now rewrite (check_response_handled response e _ Hcheck).
Qed.

(** The three outcomes of a call, by the worker's answer. A truthy
    top-level error and an error embedded in the result both reach the
    caller with code [INTERNAL_ERROR], the second wrapped around the
    [INVALID_PARAMS] error of line 196; any other result is returned as it
    was decoded. *)
Theorem send_request_on_response (m : string) (ps : list (string * string))
  (w : World) (c : Conn) (fields : list (string * pyval)) :
  connected w c ->
  replies_with E m ps w (PyDict fields) ->
  (forall e, dict_get "error" fields = Some e -> py_truthy e = true ->
     fst (send_request E m ps w)
     = Raise (McpError (mkErrorData INTERNAL_ERROR
          ("Swift service error: "
             ++ exn_str E (McpError (mkErrorData INTERNAL_ERROR (py_str E e)))))))
  /\
  (forall inner e, no_top_error fields ->
     dict_get "result" fields = Some (PyDict inner) ->
     dict_get "error" inner = Some e ->
     fst (send_request E m ps w)
     = Raise (McpError (mkErrorData INTERNAL_ERROR
          ("Swift service error: "
             ++ exn_str E (McpError (mkErrorData INVALID_PARAMS (py_str E e)))))))
  /\
  (forall result, no_top_error fields ->
     dict_get "result" fields = Some result ->
     (forall inner, result = PyDict inner -> dict_get "error" inner = None) ->
     fst (send_request E m ps w) = Ok result).
Proof.
  intros Hc Hreply.
  rewrite (send_request_checks_response m ps w c _ Hc Hreply).
  repeat split.
  - intros e He Ht. now rewrite (check_response_top_error fields e He Ht).
  - intros inner e Hno Hres He.
    rewrite (check_response_result fields _ Hno Hres). now rewrite He.
  - intros result Hno Hres Hinner.
    rewrite (check_response_result fields _ Hno Hres).
    destruct result; try reflexivity.
    now rewrite (Hinner _ eq_refl).
Qed.

End DispatchFacts.

(** ** Calls in sequence and calls that overlap *)

Section ConcurrentFacts.
Context (E : Env).
Import SwiftService Concurrent.

(** The two segments of a call, run one after the other with nothing in
    between, are [send_request]. *)
Lemma segments_are_send_request (m : string) (ps : list (string * string))
  (w : World) :
  let (c1, w1) := begin E m ps w in
  step_call E c1 w1
  = (Finished (fst (send_request E m ps w)), snd (send_request E m ps w)).
Proof.
  unfold begin, send_request, bind.
  destruct (ensure_connected E w) as [[[] | e] w1]; cbv beta iota;
    [| reflexivity].
  unfold try_except, exchange, bind.
  destruct (exchange_send E m ps w1) as [[[] | e] w2]; cbv beta iota.
  - unfold step_call, resume, try_except.
    destruct (exchange_receive E w2) as [[v | e] w3]; cbv beta iota.
    + reflexivity.
    + destruct (@send_request_handler E pyval e w3); reflexivity.
  - destruct (@send_request_handler E pyval e w2); reflexivity.
Qed.

Lemma step_first (c : call) (rest : list call) (w : World) :
  step E 0 (c :: rest, w)
  = (fst (step_call E c w) :: rest, snd (step_call E c w)).
Proof. unfold step; cbn. now destruct (step_call E c w). Qed.

Lemma step_second (c0 c : call) (rest : list call) (w : World) :
  step E 1 (c0 :: c :: rest, w)
  = (c0 :: fst (step_call E c w) :: rest, snd (step_call E c w)).
Proof. unfold step; cbn. now destruct (step_call E c w). Qed.

(** C1, as the code has it. [send_request] takes no lock and keeps no
    queue; what holds of two calls is this. When they do not overlap, the
    second starting after the first returned, they are two calls in
    sequence: each returns what [send_request] returns for its own request,
    the second in the world the first left. A call on a connected service
    puts its own request on the wire as one complete line, in a single
    write, whatever ran before it. And nothing holds a call back while
    another awaits its reply: when the second call runs its first segment
    right after the first call's, both requests are on the wire before
    either reply is read. *)
Theorem calls_in_sequence_do_not_mix
  (mA mB : string) (psA psB : list (string * string)) (w : World) :
  run_schedule E [0; 0; 1; 1] ([Pending mA psA; Pending mB psB], w)
  = ([Finished (fst (send_request E mA psA w));
      Finished (fst (send_request E mB psB (snd (send_request E mA psA w))))],
     snd (send_request E mB psB (snd (send_request E mA psA w))))
  /\
  forall c, connected w c ->
    service (snd (begin E mA psA w)) = service w /\
    filter is_write (trace (snd (begin E mA psA w)))
    = EvWrite c (Wire.encode (mkRequest (id_of_params E (trace w)) mA psA))
        :: filter is_write (trace w) /\
    let wA := snd (begin E mA psA w) in
    filter (fun ev => is_write ev || is_readline ev)
      (trace (snd (run_schedule E [0; 1] ([Pending mA psA; Pending mB psB], w))))
    = EvWrite c (Wire.encode (mkRequest (id_of_params E (trace wA)) mB psB))
        :: EvWrite c (Wire.encode (mkRequest (id_of_params E (trace w)) mA psA))
        :: filter (fun ev => is_write ev || is_readline ev) (trace w).
Proof.
  assert (Hbegin : forall m ps w0 c, connected w0 c ->
            service (snd (begin E m ps w0)) = service w0 /\
            exists drained,
              trace (snd (begin E m ps w0))
              = drained
                ++ EvWrite c (Wire.encode (mkRequest (id_of_params E (trace w0)) m ps))
                :: trace w0
              /\ (drained = [] \/ drained = [EvDrain c])).
  { intros m ps w0 c Hc.
    unfold begin. rewrite (ensure_connected_noop E w0 c Hc).
    destruct Hc as (r & p & Hs).
    assert (Hw : writer (service w0) = Some c) by (rewrite Hs; reflexivity).
    destruct (exchange_send_writes E m ps w0 c Hw) as [Hsvc Htr].
    destruct (exchange_send E m ps w0) as [[[] | e] w1]; cbn in *.
    - split; [assumption |].
      destruct Htr as [-> | ->]; [exists [] | exists [EvDrain c]]; auto.
    - rewrite (surjective_pairing (@send_request_handler E pyval e w1)).
      cbn. rewrite send_request_handler_world.
      split; [assumption |].
      destruct Htr as [-> | ->]; [exists [] | exists [EvDrain c]]; auto. }
  split.
  - unfold run_schedule; cbn [fold_left].
    pose proof (segments_are_send_request mA psA w) as HA.
    rewrite step_first. cbn [step_call].
    destruct (begin E mA psA w) as [cA wA]; cbn [fst snd].
    rewrite step_first, HA; cbn [fst snd].
    pose proof (segments_are_send_request mB psB (snd (send_request E mA psA w))) as HB.
    rewrite step_second. cbn [step_call].
    destruct (begin E mB psB (snd (send_request E mA psA w))) as [cB wB];
      cbn [fst snd].
    rewrite step_second, HB. reflexivity.
  - intros c Hc.
    destruct (Hbegin mA psA w c Hc) as (HsA & dA & HtA & HdA).
    split; [assumption |].
    split.
    + rewrite HtA. destruct HdA as [-> | ->]; reflexivity.
    + intros wA.
      assert (HcA : connected wA c).
      { destruct Hc as (r & p & Hs). exists r, p. subst wA. now rewrite HsA. }
      destruct (Hbegin mB psB wA c HcA) as (HsB & dB & HtB & HdB).
      unfold run_schedule; cbn [fold_left].
      rewrite step_first. cbn [step_call]. fold wA.
      rewrite step_second. cbn [step_call snd].
      rewrite HtB. subst wA. rewrite HtA.
      destruct HdA as [-> | ->], HdB as [-> | ->]; reflexivity.
Qed.

End ConcurrentFacts.

(** ** Sessions *)

Section Sessions.
Import SwiftService Concurrent Scenario.

(** C1 does not hold of the code. Two calls on the connected service: the
    first writes its request and awaits the reply; the second then writes
    its own and, running first once a reply has come in, reads the line the
    worker sent for the first. Each ends with the result of the other's
    request, and on the wire the second request stands between the first
    request and its reply. Alone, each call gets its own result. *)
Lemma overlapping_calls_swap_results :
  fst (run_schedule healthy [0; 1; 1; 0] two_calls)
  = [Finished (Ok (PyStr "matches")); Finished (Ok (PyStr "symbols"))]
  /\ atomic_exchanges (trace (snd (run_schedule healthy [0; 1; 1; 0] two_calls)))
     = false
  /\ fst (run_schedule healthy [0; 0] two_calls)
     = [Finished (Ok (PyStr "symbols"));
        Pending "search_pattern" [("pattern", "main")]]
  /\ fst (send_request healthy "symbol_occurrences"
            [("filePath", "/a.swift"); ("lineNumber", "7")] connected_world)
     = Ok (PyStr "symbols")
  /\ fst (send_request healthy "search_pattern" [("pattern", "main")]
            connected_world)
     = Ok (PyStr "matches").
Proof. repeat split; vm_compute; reflexivity. Qed.

Lemma calls_in_sequence_do_not_mix_witness :
  service (snd (begin healthy "symbol_occurrences"
                  [("filePath", "/a.swift"); ("lineNumber", "7")] connected_world))
  = service connected_world
  /\ filter is_write
       (trace (snd (begin healthy "symbol_occurrences"
                      [("filePath", "/a.swift"); ("lineNumber", "7")]
                      connected_world)))
     = EvWrite 1 (Wire.encode
                    (mkRequest "4003" "symbol_occurrences"
                       [("filePath", "/a.swift"); ("lineNumber", "7")]))
         :: filter is_write (trace connected_world)
  /\ filter (fun ev => is_write ev || is_readline ev)
       (trace (snd (run_schedule healthy [0; 1] two_calls)))
     = [EvWrite 1 (Wire.encode
                     (mkRequest "4005" "search_pattern" [("pattern", "main")]));
        EvWrite 1 (Wire.encode
                     (mkRequest "4003" "symbol_occurrences"
                        [("filePath", "/a.swift"); ("lineNumber", "7")]))].
Proof.
  apply (proj2 (calls_in_sequence_do_not_mix healthy
                  "symbol_occurrences" "search_pattern"
                  [("filePath", "/a.swift"); ("lineNumber", "7")]
                  [("pattern", "main")] connected_world) 1).
  exists 1, 100. reflexivity.
Defined.

(** C2 does not hold of the code where the error is embedded in the result.
    The worker answers [{"result": {"error": "bad usr"}}]. The check of
    line 194 raises [McpError] with code [INVALID_PARAMS] and that message,
    inside the [try] whose last handler catches every [Exception]; what
    [send_request] raises, and what the tool passes on, has code
    [INTERNAL_ERROR]. *)
Theorem embedded_error_leaves_as_internal_error :
  check_response (rejecting (PyStr "bad usr"))
    (PyDict [("result", PyDict [("error", PyStr "bad usr")])])
  = Raise (McpError (mkErrorData INVALID_PARAMS "bad usr"))
  /\ fst (send_request (rejecting (PyStr "bad usr")) "get_occurrences"
            [("usr", "s:4main"); ("roles", "reference")] connected_world)
     = Raise (McpError (mkErrorData INTERNAL_ERROR "Swift service error: bad usr"))
  /\ fst (get_occurrences (rejecting (PyStr "bad usr")) "s:4main" ["reference"]
            connected_world)
     = Raise (McpError (mkErrorData INTERNAL_ERROR "Swift service error: bad usr")).
Proof. repeat split; vm_compute; reflexivity. Qed.


(** C3 does not hold of the code. A first call starts the worker, connects
    and succeeds; [stop] closes the writer and forgets the process but keeps
    both handles. The next call starts a second worker (a fresh [start]),
    opens no connection, since [connect] finds the handles set, and runs its
    exchange on the stream that [stop] closed: it fails. *)
Theorem restart_after_stop_keeps_closed_connection :
  fst (first_call initial_world) = Ok (PyBool true)
  /\ fst (stop healthy after_first_call) = Ok tt
  /\ service after_stop = mkService (Some 1) (Some 1) None
  /\ closed 1 (trace after_stop) = true
  /\ ensure_connected healthy after_stop
     = (Ok tt, mkWorld (mkService (Some 1) (Some 1) (Some 101))
                       (EvSleep 2 :: EvPopen :: trace after_stop))
  /\ fst (first_call after_stop)
     = Raise (McpError (mkErrorData INTERNAL_ERROR
                          "Swift service error: Connection lost")).
Proof. repeat split; vm_compute; reflexivity. Qed.

(** C4 does not hold of the code. The connection drops under a call, which
    fails. For the next call [ensure_connected] does nothing: no worker is
    started and no connection opened, there is still the one of the start.
    The call runs on the dropped connection and fails as well. *)
Lemma dropped_connection_is_not_reopened :
  fst (drop_call connected_world)
  = Raise (McpError (mkErrorData INTERNAL_ERROR
             "Swift service error: [Errno 54] Connection reset by peer"))
  /\ ensure_connected dropped after_drop = (Ok tt, after_drop)
  /\ count is_open_connection (trace after_drop) = 1
  /\ count is_popen (trace after_drop) = 1
  /\ fst (drop_call after_drop)
     = Raise (McpError (mkErrorData INTERNAL_ERROR
                "Swift service error: [Errno 54] Connection reset by peer")).
Proof. repeat split; vm_compute; reflexivity. Qed.

Lemma failed_exchange_keeps_connection_witness :
  fst (drop_call connected_world)
  = Raise (McpError (mkErrorData INTERNAL_ERROR
             ("Swift service error: "
                ++ exn_str dropped
                     (OtherException "[Errno 54] Connection reset by peer"))))
  /\ count is_write (trace after_drop) = S (count is_write (trace connected_world))
  /\ service after_drop = service connected_world
  /\ ensure_connected dropped after_drop = (Ok tt, after_drop).
Proof.
  apply (failed_exchange_keeps_connection dropped "search_pattern"
           [("pattern", "main")] connected_world 1
           (OtherException "[Errno 54] Connection reset by peer")).
  - exists 1, 100. reflexivity.
  - vm_compute; reflexivity.
  - intros msg H; discriminate H.
Defined.

Lemma get_occurrences_validates_roles_witness :
  (exists text,
     get_occurrences healthy "s:4main" ["reference"; "caller"] connected_world
     = (Raise (McpError (mkErrorData INVALID_PARAMS text)), connected_world))
  /\ get_occurrences healthy "s:4main" ["reference"; "definition"] connected_world
     = dispatched healthy "Failed to get symbol occurrences: " "get_occurrences"
         [("usr", "s:4main"); ("roles", "reference,definition")] connected_world.
Proof.
  split.
  - apply (proj1 (get_occurrences_validates_roles healthy "s:4main"
                    ["reference"; "caller"] connected_world)).
    exists "caller". repeat split; [cbn; auto | discriminate | discriminate].
  - apply (proj2 (get_occurrences_validates_roles healthy "s:4main"
                    ["reference"; "definition"] connected_world)).
    intros r [<- | [<- | []]]; auto.
Defined.


(** C7 does not hold of the code. A worker and a connection exist and
    closing the writer raises: [stop] raises too, and the process is still
    stored afterwards. *)
Lemma stop_keeps_process_when_close_raises :
  fst (stop close_fails connected_world)
  = Raise (OtherException "[Errno 32] Broken pipe")
  /\ swift_process (service (snd (stop close_fails connected_world))) = Some 100.
Proof. split; vm_compute; reflexivity. Qed.

Lemma stop_clears_process_after_close_witness :
  (stop healthy initial_world = (Ok tt, initial_world))
  /\ (stop healthy connected_world
      = _cleanup healthy (snd (close_writer healthy connected_world))
      /\ fst (stop healthy connected_world) = Ok tt
      /\ swift_process (service (snd (stop healthy connected_world))) = None).
Proof.
  split.
  - apply (proj1 (stop_clears_process_after_close healthy initial_world));
      reflexivity.
  - apply (proj1 (proj2 (proj2 (proj2
             (stop_clears_process_after_close healthy connected_world))))).
    reflexivity.
Defined.



Lemma search_pattern_validates_options_witness :
  (exists text,
     search_pattern healthy "main" (Some ["ignoreCase"; "regex"]) connected_world
     = (Raise (McpError (mkErrorData INVALID_PARAMS text)), connected_world))
  /\ search_pattern healthy "main" (Some ["anchorStart"; "ignoreCase"]) connected_world
     = dispatched healthy "Failed to search pattern: " "search_pattern"
         [("pattern", "main"); ("options", "anchorStart,ignoreCase")] connected_world.
Proof.
  split.
  - apply (proj1 (search_pattern_validates_options healthy "main"
                    ["ignoreCase"; "regex"] connected_world)).
    exists "regex". split; [cbn; auto |].
    cbn. intros [H | [H | [H | [H | []]]]]; discriminate H.
  - apply (proj1 (proj2 (search_pattern_validates_options healthy "main"
                           ["anchorStart"; "ignoreCase"] connected_world))).
    + intros o [<- | [<- | []]]; cbn; auto.
    + discriminate.
Defined.

Lemma ensure_connected_establishes_witness :
  exists c, connected (snd (ensure_connected healthy initial_world)) c.
Proof.
  apply (ensure_connected_establishes healthy initial_world). reflexivity.
Defined.

Lemma send_request_raises_internal_witness :
  exists text,
    McpError (mkErrorData INTERNAL_ERROR "Swift service error: bad usr")
    = McpError (mkErrorData INTERNAL_ERROR text).
Proof.
  apply (send_request_raises_internal (rejecting (PyStr "bad usr"))
           "get_occurrences" [("usr", "s:4main"); ("roles", "reference")]
           connected_world 1).
  - exists 1, 100. reflexivity.
  - vm_compute; reflexivity.
Defined.

Lemma restart_opens_no_connection_witness :
  ensure_connected healthy after_stop
  = match popen healthy (trace after_stop) with
    | Ok p => (Ok tt, mkWorld (mkService (Some 1) (Some 1) (Some p))
                              (EvSleep 2 :: EvPopen :: trace after_stop))
    | Raise e => (Raise e, mkWorld (service after_stop) (EvPopen :: trace after_stop))
    end.
Proof.
  apply (restart_opens_no_connection healthy after_stop 1 1).
  vm_compute; reflexivity.
Defined.

Lemma send_request_on_response_witness :
  fst (send_request healthy "search_pattern" [("pattern", "main")] connected_world)
  = Ok (PyStr "matches").
Proof.
  apply (proj2 (proj2 (send_request_on_response healthy "search_pattern"
                         [("pattern", "main")] connected_world 1
                         [("result", PyStr "matches")]
                         (ex_intro _ 1 (ex_intro _ 100 eq_refl))
                         (ex_intro _ _ (ex_intro _ 1 (ex_intro _ _
                            (conj eq_refl (conj eq_refl (conj eq_refl eq_refl))))))))
           (PyStr "matches")).
  - exact I.
  - reflexivity.
  - intros inner H; discriminate H.
Defined.

End Sessions.

(** ** Reading what [json.dumps] wrote *)

Section WireFacts.
Import Unicode Decode.
Local Open Scope N_scope.

(** On the code points of a [string], [Unicode] writes what [Wire] writes. *)
Lemma escape_agrees (c : ascii) :
  escape_point (N_of_ascii c) = Wire.escape_char c.
Proof. destruct c as [[] [] [] [] [] [] [] []]; reflexivity. Qed.

Lemma below_16 (d : N) :
  d < 16 ->
  d = 0 \/ d = 1 \/ d = 2 \/ d = 3 \/ d = 4 \/ d = 5 \/ d = 6 \/ d = 7
  \/ d = 8 \/ d = 9 \/ d = 10 \/ d = 11 \/ d = 12 \/ d = 13 \/ d = 14 \/ d = 15.
Proof. lia. Qed.

Lemma hex_value_digit (d : N) : d < 16 -> hex_value (hex_digit d) = Some d.
Proof.
  intros H. apply below_16 in H.
  repeat (destruct H as [-> | H]; [reflexivity |]). subst. reflexivity.
Qed.

(** The four digits of a number below 0x10000, and the number they spell. *)
Lemma four_digits (n : N) :
  n < 0x10000 ->
  n / 4096 < 16 /\ (n / 256) mod 16 < 16 /\ (n / 16) mod 16 < 16 /\ n mod 16 < 16
  /\ ((n / 4096 * 16 + (n / 256) mod 16) * 16 + (n / 16) mod 16) * 16 + n mod 16 = n.
Proof.
  intros H. zify. Z.to_euclidean_division_equations. lia.
Qed.

Lemma hex4_u_escape (n : N) :
  n < 0x10000 ->
  hex4 (hex_digit (n / 4096)) (hex_digit ((n / 256) mod 16))
       (hex_digit ((n / 16) mod 16)) (hex_digit (n mod 16)) = Some n.
Proof.
  intros H. destruct (four_digits n H) as (H1 & H2 & H3 & H4 & Hn).
  unfold hex4. rewrite !hex_value_digit by assumption. now rewrite Hn.
Qed.


Lemma append_assoc (a b c : string) : ((a ++ b) ++ c = a ++ (b ++ c))%string.
Proof. induction a as [| x a IH]; cbn; [reflexivity | now rewrite IH]. Qed.

Lemma lex_u (acc : str) (h1 h2 h3 h4 : ascii) (rest : string) :
  lex (InString acc)
    (String Wire.backslash (String "u"
       (String h1 (String h2 (String h3 (String h4 rest))))))
  = match hex4 h1 h2 h3 h4 with
    | Some v =>
        if is_high v then lex (AfterHigh acc v) rest
        else if is_low v then None
        else lex (InString (acc ++ [v])) rest
    | None => None
    end.
Proof. reflexivity. Qed.

Lemma lex_low (acc : str) (high : N) (h1 h2 h3 h4 : ascii) (rest : string) :
  lex (AfterHigh acc high)
    (String Wire.backslash (String "u"
       (String h1 (String h2 (String h3 (String h4 rest))))))
  = match hex4 h1 h2 h3 h4 with
    | Some v =>
        if is_low v then lex (InString (acc ++ [pair_value high v])) rest
        else None
    | None => None
    end.
Proof. reflexivity. Qed.

Lemma lex_plain (acc : str) (n : N) (rest : string) :
  32 <= n -> n <= 126 -> n <> 34 -> n <> 92 ->
  lex (InString acc) (String (ascii_of_N n) rest) = lex (InString (acc ++ [n])) rest.
Proof.
  intros H1 H2 H3 H4. cbn [lex].
  rewrite N_ascii_embedding by lia.
  rewrite (proj2 (N.eqb_neq n 34) H3), (proj2 (N.eqb_neq n 92) H4).
  rewrite (proj2 (N.ltb_ge n 32)) by lia.
  rewrite (proj2 (N.ltb_lt n 128)) by lia.
  reflexivity.
Qed.

(** The bit operations of the surrogate pair, as arithmetic. *)
Lemma lor_low_bits (a x : N) :
  N.land a 0x3ff = 0 -> N.lor a (N.land x 0x3ff) = a + x mod 1024.
Proof.
  intros Ha.
  assert (H0 : N.land a (N.land x 0x3ff) = 0).
  { rewrite (N.land_comm x), N.land_assoc, Ha. apply N.land_0_l. }
  rewrite <- (N.lxor_lor _ _ H0), <- (N.add_nocarry_lxor _ _ H0).
  change 0x3ff with (N.ones 10). now rewrite N.land_ones.
Qed.

Lemma surrogates_of (n : N) :
  0x10000 <= n -> n < 0x110000 ->
  N.lor 0xd800 (N.land (N.shiftr (n - 0x10000) 10) 0x3ff)
  = 0xD800 + (n - 0x10000) / 1024
  /\ N.lor 0xdc00 (N.land (n - 0x10000) 0x3ff) = 0xDC00 + (n - 0x10000) mod 1024.
Proof.
  intros H1 H2.
  rewrite !lor_low_bits by reflexivity.
  rewrite N.shiftr_div_pow2. change (2 ^ 10) with 1024.
  split; [| reflexivity].
  rewrite N.mod_small; [reflexivity |].
  zify. Z.to_euclidean_division_equations. lia.
Qed.

(** Reading what [json.dumps] wrote for one scalar value gives it back:
    by its short escape, as itself, by its four-digit escape, or by the two
    escapes of its surrogate pair. *)
Lemma lex_escape_point (c : N) (acc : str) (rest : string) :
  is_scalar c = true ->
  lex (InString acc) (escape_point c ++ rest)%string
  = lex (InString (acc ++ [c])) rest.
Proof.
  unfold is_scalar, is_surrogate. intros Hc.
  apply andb_prop in Hc as [Hlt Hs]. apply N.ltb_lt in Hlt.
  apply negb_true_iff, andb_false_iff in Hs.
  unfold escape_point.
  destruct (N.eqb_spec c 34) as [-> | N34]; [reflexivity |].
  destruct (N.eqb_spec c 92) as [-> | N92]; [reflexivity |].
  destruct (N.eqb_spec c 10) as [-> | N10]; [reflexivity |].
  destruct (N.eqb_spec c 13) as [-> | N13]; [reflexivity |].
  destruct (N.eqb_spec c 9) as [-> | N9]; [reflexivity |].
  destruct (N.eqb_spec c 8) as [-> | N8]; [reflexivity |].
  destruct (N.eqb_spec c 12) as [-> | N12]; [reflexivity |].
  destruct (N.leb_spec 32 c) as [L32 | L32]; cbn [andb].
  - destruct (N.leb_spec c 126) as [L126 | L126].
    + cbn [append]. now apply lex_plain.
    + destruct (N.ltb_spec c 0x10000) as [Lb | Lb].
      * unfold u_escape. cbn [append]. rewrite lex_u, hex4_u_escape by assumption.
        unfold is_high, is_low.
        destruct Hs as [Hs | Hs].
        -- apply N.leb_gt in Hs.
           rewrite (proj2 (N.leb_gt 0xD800 c)) by lia.
           rewrite (proj2 (N.leb_gt 0xDC00 c)) by lia. reflexivity.
        -- apply N.leb_gt in Hs.
           rewrite (proj2 (N.leb_gt c 0xDBFF)) by lia.
           rewrite (proj2 (N.leb_gt c 0xDFFF)) by lia.
           now rewrite !andb_false_r.
      * cbv zeta. destruct (surrogates_of c Lb Hlt) as [-> ->].
        assert (Hq : exists q r, (c - 0x10000) / 1024 = q /\ (c - 0x10000) mod 1024 = r
                                 /\ q < 1024 /\ r < 1024
                                 /\ c = 0x10000 + q * 1024 + r).
        { exists ((c - 0x10000) / 1024), ((c - 0x10000) mod 1024).
          split; [reflexivity |]. split; [reflexivity |].
          zify. Z.to_euclidean_division_equations. lia. }
        destruct Hq as (q & r & -> & -> & Hq1 & Hq2 & Hq3).
        unfold u_escape at 1. cbn [append].
        rewrite lex_u, hex4_u_escape by lia.
        unfold is_high.
        rewrite (proj2 (N.leb_le 0xD800 (0xD800 + q))) by lia.
        rewrite (proj2 (N.leb_le (0xD800 + q) 0xDBFF)) by lia.
        cbn [andb]. unfold u_escape. cbn [append].
        rewrite lex_low, hex4_u_escape by lia.
        unfold is_low.
        rewrite (proj2 (N.leb_le 0xDC00 (0xDC00 + r))) by lia.
        rewrite (proj2 (N.leb_le (0xDC00 + r) 0xDFFF)) by lia.
        cbn [andb]. unfold pair_value.
        replace (0x10000 + (0xD800 + q - 0xD800) * 0x400 + (0xDC00 + r - 0xDC00))
          with c by lia.
        reflexivity.
  - rewrite (proj2 (N.ltb_lt c 0x10000)) by lia.
    unfold u_escape. cbn [append]. rewrite lex_u, hex4_u_escape by lia.
    unfold is_high, is_low.
    rewrite (proj2 (N.leb_gt 0xD800 c)) by lia.
    rewrite (proj2 (N.leb_gt 0xDC00 c)) by lia. reflexivity.
Qed.


Lemma option_map_nil_app (o : option (list token)) :
  option_map (app []) o = o.
Proof. now destruct o. Qed.

Lemma lex_escape (s acc : str) (rest : string) :
  scalar s = true ->
  lex (InString acc) (escape s ++ String Wire.dquote rest)%string
  = option_map (cons (Str (acc ++ s))) (lex Between rest).
Proof.
  revert acc. induction s as [| c s IH]; intros acc Hs.
  - cbn. now rewrite app_nil_r.
  - cbn [scalar forallb] in Hs. apply andb_prop in Hs as [Hc Hs].
    cbn [escape]. rewrite append_assoc, (lex_escape_point c acc _ Hc), (IH _ Hs).
    now rewrite <- app_assoc.
Qed.

Lemma lex_dumps_str (s : str) (rest : string) :
  scalar s = true ->
  lex Between (dumps_str s ++ rest)%string
  = option_map (cons (Str s)) (lex Between rest).
Proof.
  intros Hs. unfold dumps_str. cbn [append]. rewrite append_assoc. cbn [append].
  change (lex Between (String Wire.dquote (escape s ++ String Wire.dquote rest)%string))
    with (lex (InString []) (escape s ++ String Wire.dquote rest)%string).
  now rewrite (lex_escape s [] rest Hs).
Qed.

Lemma lex_colon (rest : string) :
  lex Between (": " ++ rest)%string = option_map (cons Colon) (lex Between rest).
Proof. reflexivity. Qed.

Lemma lex_comma (rest : string) :
  lex Between (", " ++ rest)%string = option_map (cons Comma) (lex Between rest).
Proof. reflexivity. Qed.

Lemma lex_open (rest : string) :
  lex Between ("{" ++ rest)%string = option_map (cons LBrace) (lex Between rest).
Proof. reflexivity. Qed.

Lemma lex_close (rest : string) :
  lex Between ("}" ++ rest)%string = option_map (cons RBrace) (lex Between rest).
Proof. reflexivity. Qed.

Lemma lex_item (k v : str) (rest : string) :
  scalar k = true -> scalar v = true ->
  lex Between (dumps_str k ++ ": " ++ dumps_str v ++ rest)%string
  = option_map (app [Str k; Colon; Str v]) (lex Between rest).
Proof.
  intros Hk Hv.
  rewrite (lex_dumps_str k _ Hk), lex_colon, (lex_dumps_str v _ Hv).
  now destruct (lex Between rest).
Qed.

Lemma lex_items (items : list (str * str)) (rest : string) :
  scalar_items items = true ->
  lex Between (dumps_items items ++ rest)%string
  = option_map (app (item_tokens items)) (lex Between rest).
Proof.
  induction items as [| [k v] items IH]; intros Hs.
  - cbn. now rewrite option_map_nil_app.
  - cbn [scalar_items forallb fst snd] in Hs.
    apply andb_prop in Hs as [Hkv Hs]. apply andb_prop in Hkv as [Hk Hv].
    destruct items as [| kv items].
    + cbn [dumps_items item_tokens].
      rewrite !append_assoc. now apply lex_item.
    + change (dumps_items ((k, v) :: kv :: items))
        with (dumps_str k ++ ": " ++ dumps_str v ++ ", " ++ dumps_items (kv :: items))%string.
      change (item_tokens ((k, v) :: kv :: items))
        with (Str k :: Colon :: Str v :: Comma :: item_tokens (kv :: items)).
      rewrite !append_assoc, (lex_item k v _ Hk Hv), lex_comma, (IH Hs).
      now destruct (lex Between rest).
Qed.

Lemma lex_dumps (r : Request) :
  scalar_request r = true ->
  lex Between (dumps r) = Some (request_tokens r).
Proof.
  unfold scalar_request. intros Hs.
  apply andb_prop in Hs as [Hs Hp]. apply andb_prop in Hs as [Hi Hm].
  unfold dumps, dumps_dict, request_tokens.
  rewrite lex_open, lex_dumps_str, lex_colon, lex_dumps_str, lex_comma
    by (assumption || reflexivity).
  rewrite lex_dumps_str, lex_colon, lex_dumps_str, lex_comma
    by (assumption || reflexivity).
  rewrite lex_dumps_str, lex_colon by reflexivity.
  rewrite !append_assoc, lex_open, lex_items by assumption.
  reflexivity.
Qed.

Lemma parse_value_str (fuel : nat) (s : str) (rest : list token) :
  parse_value (S fuel) (Str s :: rest) = Some (Text s, rest).
Proof. reflexivity. Qed.

Lemma parse_members_step (fuel : nat) (k : str) (rest : list token) :
  parse_members (S fuel) (Str k :: Colon :: rest)
  = match parse_value fuel rest with
    | Some (v, Comma :: rest') =>
        match parse_members fuel rest' with
        | Some (fields, rest'') => Some ((k, v) :: fields, rest'')
        | None => None
        end
    | Some (v, RBrace :: rest') => Some ([(k, v)], rest')
    | _ => None
    end.
Proof. reflexivity. Qed.

Lemma parse_items (items : list (str * str)) (rest : list token) (fuel : nat) :
  items <> [] ->
  (List.length items < fuel)%nat ->
  parse_members fuel (app (item_tokens items) (RBrace :: rest))
  = Some (item_values items, rest).
Proof.
  revert fuel. induction items as [| [k v] items IH]; intros fuel Hne Hlen.
  - now destruct Hne.
  - destruct fuel as [| [| fuel]]; cbn [List.length] in Hlen; try lia.
    destruct items as [| kv items].
    + reflexivity.
    + change (item_tokens ((k, v) :: kv :: items))
        with (Str k :: Colon :: Str v :: Comma :: item_tokens (kv :: items)).
      cbn [app]. rewrite parse_members_step, parse_value_str.
      rewrite IH by (try discriminate; cbn [List.length] in *; lia).
      reflexivity.
Qed.

Lemma parse_dict (items : list (str * str)) (rest : list token) (fuel : nat) :
  (List.length items < fuel)%nat ->
  parse_value (S fuel) (LBrace :: app (item_tokens items) (RBrace :: rest))
  = Some (Object (item_values items), rest).
Proof.
  intros Hlen. destruct items as [| kv items].
  - reflexivity.
  - assert (Hp := parse_items (kv :: items) rest fuel ltac:(discriminate) Hlen).
    destruct kv as [k v].
    destruct items as [| kv' items];
      cbn [parse_value item_tokens app] in *; now rewrite Hp.
Qed.

Lemma parse_value_open (fuel : nat) (k : str) (rest : list token) :
  parse_value (S fuel) (LBrace :: Str k :: rest)
  = match parse_members fuel (Str k :: rest) with
    | Some (fields, rest') => Some (Object fields, rest')
    | None => None
    end.
Proof. reflexivity. Qed.

Lemma parse_request (r : Request) (fuel : nat) :
  (List.length (req_params r) < fuel)%nat ->
  parse_value (5 + fuel) (request_tokens r)
  = Some (Object [(of_string "id", Text (req_id r));
                  (of_string "method", Text (req_method r));
                  (of_string "params", Object (item_values (req_params r)))], []).
Proof.
  intros Hlen. unfold request_tokens.
  change [RBrace; RBrace] with (RBrace :: [RBrace]).
  change (5 + fuel)%nat with (S (S (S (S (S fuel))))).
  rewrite parse_value_open.
  rewrite parse_members_step, parse_value_str.
  rewrite parse_members_step, parse_value_str.
  rewrite parse_members_step.
  rewrite (parse_dict (req_params r) [RBrace] fuel Hlen).
  reflexivity.
Qed.

Lemma string_items_values (items : list (str * str)) :
  string_items (item_values items) = Some items.
Proof.
  induction items as [| [k v] items IH]; [reflexivity |].
  cbn [item_values map fst snd string_items].
  fold (item_values items). now rewrite IH.
Qed.

Lemma item_tokens_length (items : list (str * str)) :
  (List.length items <= List.length (item_tokens items))%nat.
Proof.
  induction items as [| [k v] items IH]; [apply le_n |].
  destruct items as [| kv items]; [cbn; lia |].
  change (item_tokens ((k, v) :: kv :: items))
    with (Str k :: Colon :: Str v :: Comma :: item_tokens (kv :: items)).
  cbn [List.length] in *. lia.
Qed.

(** The text of a request without surrogates decodes to the request. *)
Lemma loads_dumps (r : Request) :
  scalar_request r = true ->
  match loads (dumps r) with
  | Some v => to_request v
  | None => None
  end = Some r.
Proof.
  intros Hs. unfold loads. rewrite (lex_dumps r Hs).
  set (ts := request_tokens r).
  assert (Hfuel : exists fuel,
             S (List.length ts) = (5 + fuel)%nat
             /\ (List.length (req_params r) < fuel)%nat).
  { exists (List.length ts - 4)%nat. subst ts. unfold request_tokens.
    cbn [List.length]. rewrite length_app. cbn [List.length].
    pose proof (item_tokens_length (req_params r)). lia. }
  destruct Hfuel as (fuel & -> & Hlen). subst ts.
  rewrite (parse_request r fuel Hlen).
  unfold to_request. cbn. rewrite string_items_values. now destruct r.
Qed.

(** [json.dumps] writes no line delimiter: a newline in a string goes out
    as a backslash and an [n]. *)
Lemma single_line_app (a b : string) :
  Wire.single_line (a ++ b)%string = Wire.single_line a && Wire.single_line b.
Proof.
  induction a as [| c a IH]; cbn; [reflexivity |].
  now rewrite IH, andb_assoc.
Qed.

Lemma hex_digit_no_newline (d : N) :
  d < 16 -> Ascii.eqb (hex_digit d) Wire.newline = false.
Proof.
  intros H. apply below_16 in H.
  repeat (destruct H as [-> | H]; [reflexivity |]). subst. reflexivity.
Qed.

Lemma single_line_u_escape (n : N) :
  n < 0x10000 -> Wire.single_line (u_escape n) = true.
Proof.
  intros H. destruct (four_digits n H) as (H1 & H2 & H3 & H4 & _).
  unfold u_escape. cbn [Wire.single_line].
  rewrite !hex_digit_no_newline by assumption. reflexivity.
Qed.

Lemma low_bits_below (a x : N) :
  N.land a 0x3ff = 0 -> a + 1024 <= 0x10000 ->
  N.lor a (N.land x 0x3ff) < 0x10000.
Proof.
  intros Ha Hb. rewrite (lor_low_bits a x Ha).
  pose proof (N.mod_upper_bound x 1024). lia.
Qed.

Lemma single_line_escape_point (c : N) : Wire.single_line (escape_point c) = true.
Proof.
  unfold escape_point.
  destruct (N.eqb_spec c 34); [reflexivity |].
  destruct (N.eqb_spec c 92); [reflexivity |].
  destruct (N.eqb_spec c 10) as [| N10]; [reflexivity |].
  destruct (N.eqb_spec c 13); [reflexivity |].
  destruct (N.eqb_spec c 9); [reflexivity |].
  destruct (N.eqb_spec c 8); [reflexivity |].
  destruct (N.eqb_spec c 12); [reflexivity |].
  destruct ((32 <=? c) && (c <=? 126)) eqn:Hp.
  - apply andb_prop in Hp as [H1 H2]. apply N.leb_le in H1, H2.
    cbn [Wire.single_line].
    destruct (Ascii.eqb_spec (ascii_of_N c) Wire.newline) as [He | He]; [| reflexivity].
    apply (f_equal N_of_ascii) in He. rewrite N_ascii_embedding in He by lia.
    now destruct N10.
  - destruct (N.ltb_spec c 0x10000) as [Lb | Lb].
    + now apply single_line_u_escape.
    + cbv zeta. rewrite single_line_app, !single_line_u_escape;
        [reflexivity | |]; apply low_bits_below; reflexivity || (cbn; lia).
Qed.

Lemma single_line_escape (s : str) : Wire.single_line (escape s) = true.
Proof.
  induction s as [| c s IH]; [reflexivity |].
  cbn [escape]. now rewrite single_line_app, single_line_escape_point, IH.
Qed.

Lemma single_line_dumps_str (s : str) : Wire.single_line (dumps_str s) = true.
Proof.
  unfold dumps_str. cbn [Wire.single_line].
  now rewrite single_line_app, single_line_escape.
Qed.

Lemma single_line_dumps_items (items : list (str * str)) :
  Wire.single_line (dumps_items items) = true.
Proof.
  induction items as [| [k v] items IH]; [reflexivity |].
  destruct items as [| kv items].
  - cbn [dumps_items].
    now rewrite !single_line_app, !single_line_dumps_str.
  - change (dumps_items ((k, v) :: kv :: items))
      with (dumps_str k ++ ": " ++ dumps_str v ++ ", " ++ dumps_items (kv :: items))%string.
    now rewrite !single_line_app, !single_line_dumps_str, IH.
Qed.

Lemma single_line_dumps (r : Request) : Wire.single_line (dumps r) = true.
Proof.
  unfold dumps, dumps_dict.
  now rewrite !single_line_app, !single_line_dumps_str, single_line_dumps_items.
Qed.

Lemma read_line_app (line more : string) :
  Wire.single_line line = true ->
  read_line (line ++ String Wire.newline more)%string = Some (line, more).
Proof.
  induction line as [| c line IH]; cbn.
  - reflexivity.
  - intros H. apply andb_prop in H as [Hc Hl].
    apply negb_true_iff in Hc. rewrite Hc, (IH Hl). reflexivity.
Qed.

End WireFacts.

(** ** The two models of the request line *)

Section Agreement.
Local Open Scope N_scope.

Lemma of_string_cons (c : ascii) (s : string) :
  Unicode.of_string (String c s) = N_of_ascii c :: Unicode.of_string s.
Proof. reflexivity. Qed.

Lemma escape_of_string (s : string) :
  Unicode.escape (Unicode.of_string s) = Wire.escape s.
Proof.
  induction s as [| c s IH]; [reflexivity |].
  rewrite of_string_cons. cbn [Unicode.escape Wire.escape].
  now rewrite escape_agrees, IH.
Qed.

Lemma dumps_str_of_string (s : string) :
  Unicode.dumps_str (Unicode.of_string s) = Wire.dumps_str s.
Proof. unfold Unicode.dumps_str, Wire.dumps_str. now rewrite escape_of_string. Qed.

Lemma dumps_items_of_strings (items : list (string * string)) :
  Unicode.dumps_items
    (map (fun kv => (Unicode.of_string (fst kv), Unicode.of_string (snd kv))) items)
  = Wire.dumps_items items.
Proof.
  induction items as [| [k v] items IH]; [reflexivity |].
  destruct items as [| kv items].
  - cbn [map fst snd Unicode.dumps_items Wire.dumps_items].
    now rewrite !dumps_str_of_string.
  - cbn [map] in *. cbn [fst snd].
    change (Wire.dumps_items ((k, v) :: kv :: items))
      with (Wire.dumps_str k ++ ": " ++ Wire.dumps_str v ++ ", "
              ++ Wire.dumps_items (kv :: items))%string.
    rewrite <- IH. cbn [Unicode.dumps_items].
    now rewrite !dumps_str_of_string.
Qed.

(** The line of a request of the service model is the line of its text. *)
Lemma encode_agrees (r : Request) :
  Unicode.encode (as_text r) = Wire.encode r.
Proof.
  unfold Unicode.encode, Wire.encode, Unicode.dumps, Wire.dumps,
    Unicode.dumps_dict, Wire.dumps_dict, as_text.
  cbn [Unicode.req_id Unicode.req_method Unicode.req_params].
  now rewrite !dumps_str_of_string, dumps_items_of_strings.
Qed.

Lemma scalar_of_string (s : string) : Unicode.scalar (Unicode.of_string s) = true.
Proof.
  induction s as [| c s IH]; [reflexivity |].
  rewrite of_string_cons. cbn [Unicode.scalar forallb].
  fold (Unicode.scalar (Unicode.of_string s)).
  rewrite IH, andb_true_r.
  unfold Unicode.is_scalar, Unicode.is_surrogate.
  pose proof (N_ascii_bounded c) as Hc.
  rewrite (proj2 (N.ltb_lt _ _)) by lia.
  rewrite (proj2 (N.leb_gt 0xD800 _)) by lia. reflexivity.
Qed.

Lemma scalar_as_text (r : Request) : Unicode.scalar_request (as_text r) = true.
Proof.
  unfold Unicode.scalar_request, as_text.
  cbn [Unicode.req_id Unicode.req_method Unicode.req_params].
  rewrite !scalar_of_string. cbn [andb].
  induction (req_params r) as [| [k v] items IH]; [reflexivity |].
  cbn [map Unicode.scalar_items forallb fst snd].
  rewrite !scalar_of_string. exact IH.
Qed.

End Agreement.

(** ** The request line, written and read back *)

Section RoundTrip.
Import Unicode Decode.
Local Open Scope N_scope.

(** C9, as the code has it. A request, whatever the code points of its id,
    its method name and the keys and values of its parameters, is encoded
    as one line: the text [json.dumps] writes holds no line delimiter, and
    one follows it. When no string of the request holds a surrogate code
    point, reading one message off a stream that starts with that line
    yields the request itself, every field code point for code point, and
    leaves the stream right after the line. The requests of the service
    model, of characters U+0000..U+00FF, are among those: their line is the
    one the dispatcher writes. *)
Theorem request_round_trip (r : Request) (more : string) :
  Wire.single_line (dumps r) = true
  /\ encode r = (dumps r ++ String Wire.newline "")%string
  /\ (scalar_request r = true ->
      read_message (encode r ++ more)%string = Some (r, more))
  /\ (forall r0, as_text r0 = r ->
      Wire.encode r0 = encode r /\ scalar_request r = true).
Proof.
  split; [apply single_line_dumps |]. split; [reflexivity |]. split.
  - intros Hs. unfold read_message, encode.
    rewrite append_assoc. cbn [append].
    rewrite (read_line_app (dumps r) more (single_line_dumps r)).
    pose proof (loads_dumps r Hs) as H.
    destruct (loads (dumps r)) as [v |]; [| discriminate].
    now rewrite H.
  - intros r0 <-. split; [symmetry; apply encode_agrees | apply scalar_as_text].
Qed.

Lemma request_round_trip_witness :
  read_message (encode (Scenario.text_request Scenario.mixed_pattern) ++ "next")%string
  = Some (Scenario.text_request Scenario.mixed_pattern, "next"%string).
Proof.
  apply (proj1 (proj2 (proj2
           (request_round_trip (Scenario.text_request Scenario.mixed_pattern)
                               "next")))).
  reflexivity.
Defined.

(** C9 does not hold of every request. A Python [str] may hold surrogate
    code points, and [json.dumps] writes a high and a low surrogate in a
    row exactly as it writes the one code point of that pair: the request
    for the pattern U+D83D U+DE00 and the request for the pattern U+1F600
    are different requests with the same line. No reader can give both
    back; the reader here gives the second for the first. *)
Lemma surrogate_pair_is_read_as_one_character :
  Scenario.text_request Scenario.surrogates <> Scenario.text_request Scenario.emoji
  /\ encode (Scenario.text_request Scenario.surrogates)
     = encode (Scenario.text_request Scenario.emoji)
  /\ read_message (encode (Scenario.text_request Scenario.surrogates))
     = Some (Scenario.text_request Scenario.emoji, ""%string).
Proof.
  split; [discriminate |]. split; vm_compute; reflexivity.
Qed.

(** Two requests without surrogates that have the same line are the same
    request: the id, the method, and the keys and values of the parameters
    in their order can all be told from the line. *)
Theorem encode_is_injective (r1 r2 : Request) :
  scalar_request r1 = true -> scalar_request r2 = true ->
  encode r1 = encode r2 -> r1 = r2.
Proof.
  intros S1 S2 H.
  assert (Hd : dumps r1 = dumps r2).
  { pose proof (read_line_app (dumps r1) "" (single_line_dumps r1)) as H1.
    pose proof (read_line_app (dumps r2) "" (single_line_dumps r2)) as H2.
    unfold encode in H. rewrite H in H1. rewrite H1 in H2.
    exact (f_equal (fun o => match o with
                             | Some (l, _) => l
                             | None => ""%string
                             end) H2). }
  pose proof (loads_dumps r1 S1) as L1.
  pose proof (loads_dumps r2 S2) as L2.
  rewrite Hd in L1. rewrite L1 in L2. now injection L2.
Qed.

Lemma encode_is_injective_witness :
  Scenario.text_request Scenario.mixed_pattern
  = Scenario.text_request (Scenario.emoji_first ++ Scenario.after_emoji).
Proof.
  apply (encode_is_injective
           (Scenario.text_request Scenario.mixed_pattern)
           (Scenario.text_request (Scenario.emoji_first ++ Scenario.after_emoji)));
    reflexivity.
Defined.

End RoundTrip.

(** ** What leaves a tool *)

Section ToolErrors.
Context (E : Env).
Import SwiftService.

Lemma tool_handler_raises (A : Type) (prefix : string) (e : exn) (w : World) :
  exists d, @tool_handler E A prefix e w = (Raise (McpError d), w).
Proof. destruct e; eexists; reflexivity. Qed.

Lemma guarded_raises_mcp (body : M pyval) (prefix : string) (w : World) (e : exn) :
  fst (try_except body (tool_handler E prefix) w) = Raise e ->
  exists d, e = McpError d.
Proof.
  unfold try_except.
  destruct (body w) as [[v | e0] w1]; cbn; [discriminate |].
  destruct (tool_handler_raises pyval prefix e0 w1) as [d ->]; cbn.
  intros [= <-]. now exists d.
Qed.

(** The try of [send_request] lets nothing out but [INTERNAL_ERROR]. *)
Lemma exchange_guarded (m : string) (ps : list (string * string))
  (w : World) (e : exn) :
  fst (try_except (exchange E m ps) (@send_request_handler E pyval) w) = Raise e ->
  exists text, e = McpError (mkErrorData INTERNAL_ERROR text).
Proof.
  unfold try_except.
  destruct (exchange E m ps w) as [[v | e0] w1]; cbn; [discriminate |].
  destruct (send_request_handler_raises E pyval e0 w1) as [text ->]; cbn.
  intros [= <-]. now exists text.
Qed.

Lemma dispatched_raises_internal (prefix m : string) (ps : list (string * string))
  (w : World) (c : Conn) (e : exn) :
  connected w c ->
  fst (dispatched E prefix m ps w) = Raise e ->
  exists text, e = McpError (mkErrorData INTERNAL_ERROR text).
Proof.
  intros Hc. unfold dispatched.
  unfold try_except at 1.
  rewrite (send_request_connected E m ps w c Hc).
  pose proof (exchange_guarded m ps w) as Hg.
  destruct (try_except (exchange E m ps) (@send_request_handler E pyval) w)
    as [[v | e0] w1]; cbn in *; [discriminate |].
  destruct (Hg e0 eq_refl) as [text ->]. cbn.
  intros [= <-]. now exists text.
Qed.

(** Whatever happens, in any world and whatever the outside answers, an
    exception that leaves one of the four tools is an [McpError]: the
    uniform envelope. [load_index] wraps every exception; the other three
    pass an [McpError] on and wrap the rest. *)
Theorem tools_raise_mcp_errors (w : World) (e : exn) :
  (forall projectName,
     fst (load_index E projectName w) = Raise e -> exists d, e = McpError d)
  /\ (forall filePath lineNumber,
        fst (symbol_occurrences E filePath lineNumber w) = Raise e ->
        exists d, e = McpError d)
  /\ (forall usr roles,
        fst (get_occurrences E usr roles w) = Raise e -> exists d, e = McpError d)
  /\ (forall pattern options,
        fst (search_pattern E pattern options w) = Raise e ->
        exists d, e = McpError d).
Proof.
  split; [| split; [| split]].
  - intros projectName. unfold load_index, try_except.
    destruct (send_request E "is_available" _ w) as [[v | e0] w1]; cbn;
      [discriminate |].
    intros [= <-]. eexists; reflexivity.
  - intros filePath lineNumber. apply guarded_raises_mcp.
  - intros usr roles. apply guarded_raises_mcp.
  - intros pattern options. apply guarded_raises_mcp.
Qed.

(** On a connected service a tool raises [INVALID_PARAMS] only for its own
    validation: whatever the worker answers, also a rejection embedded in
    its result, an error of that code means an argument failed the tool's
    check. *)
Theorem invalid_params_means_invalid_argument (w : World) (c : Conn) (text : string) :
  connected w c ->
  (forall usr roles,
     fst (get_occurrences E usr roles w)
     = Raise (McpError (mkErrorData INVALID_PARAMS text)) ->
     exists r, In r roles /\ ~ In r valid_roles)
  /\ (forall filePath lineNumber,
        fst (symbol_occurrences E filePath lineNumber w)
        = Raise (McpError (mkErrorData INVALID_PARAMS text)) ->
        isinstance_int lineNumber = false
        \/ exists n, int_value lineNumber = Some n /\ (n < 1)%Z)
  /\ (forall pattern options,
        fst (search_pattern E pattern options w)
        = Raise (McpError (mkErrorData INVALID_PARAMS text)) ->
        exists os o, options = Some os /\ In o os /\ ~ In o valid_options).
Proof.
  intros Hc.
  assert (Hfilter : forall allowed xs y ys,
             not_allowed allowed xs = y :: ys ->
             In y xs /\ ~ In y allowed).
  { intros allowed xs y ys H.
    assert (Hy : In y (not_allowed allowed xs)) by (rewrite H; now left).
    unfold not_allowed in Hy. apply filter_In in Hy as [Hin Hneg].
    split; [assumption |]. intros Hall. apply str_in_spec in Hall.
    rewrite Hall in Hneg. discriminate. }
  assert (Hint : forall prefix m ps,
             fst (dispatched E prefix m ps w)
             <> Raise (McpError (mkErrorData INVALID_PARAMS text))).
  { intros prefix m ps H.
    destruct (dispatched_raises_internal prefix m ps w c _ Hc H) as [t Ht].
    discriminate Ht. }
  split; [| split].
  - intros usr roles H.
    destruct (not_allowed valid_roles roles) as [| y ys] eqn:Hna.
    + exfalso. apply (Hint "Failed to get symbol occurrences: " "get_occurrences"
                        [("usr", usr); ("roles", String.concat "," roles)]).
      rewrite <- H. unfold get_occurrences, dispatched. cbn zeta.
      now rewrite Hna.
    + exists y. now apply (Hfilter valid_roles roles y ys).
  - intros filePath lineNumber H.
    destruct (isinstance_int lineNumber) eqn:Hi; [| now left].
    right. unfold lt_one in H.
    destruct lineNumber; try discriminate Hi; cbn [int_value] in *.
    + exists (Z.b2z b). split; [reflexivity |].
      destruct (Z.b2z b <? 1)%Z eqn:Hlt; [now apply Z.ltb_lt |].
      exfalso. eapply Hint. rewrite <- H.
      unfold symbol_occurrences, dispatched, lt_one.
      cbn [isinstance_int int_value negb orb]. rewrite Hlt. reflexivity.
    + exists n. split; [reflexivity |].
      destruct (n <? 1)%Z eqn:Hlt; [now apply Z.ltb_lt |].
      exfalso. eapply Hint. rewrite <- H.
      unfold symbol_occurrences, dispatched, lt_one.
      cbn [isinstance_int int_value negb orb]. rewrite Hlt. reflexivity.
  - intros pattern options H.
    destruct options as [[| o os] |].
    + exfalso. eapply Hint. rewrite <- H. reflexivity.
    + destruct (not_allowed valid_options (o :: os)) as [| y ys] eqn:Hna.
      * exfalso. eapply Hint. rewrite <- H.
        unfold search_pattern, dispatched. cbn zeta. rewrite Hna. reflexivity.
      * exists (o :: os), y. split; [reflexivity |].
        now apply (Hfilter valid_options (o :: os) y ys).
    + exfalso. eapply Hint. rewrite <- H. reflexivity.
Qed.

End ToolErrors.

(** ** Starting, and failing to start *)

Section StartFacts.
Context (E : Env).
Import SwiftService.

(** The worker cannot be spawned. [Popen] raises while no process is stored:
    the exception leaves [send_request] as it is, since [ensure_connected]
    runs before the [try], and a tool wraps it with its own prefix unless it
    is an [McpError] already. Nothing is stored, so the next call tries to
    spawn again. *)
Theorem spawn_failure_is_not_stored
  (m : string) (ps : list (string * string)) (prefix : string)
  (w : World) (e : exn) :
  swift_process (service w) = None ->
  popen E (trace w) = Raise e ->
  send_request E m ps w = (Raise e, mkWorld (service w) (EvPopen :: trace w))
  /\ ((forall d, e <> McpError d) ->
      dispatched E prefix m ps w
      = (Raise (McpError (mkErrorData INTERNAL_ERROR (prefix ++ exn_str E e))),
         mkWorld (service w) (EvPopen :: trace w))).
Proof.
  intros Hp Hpopen.
  assert (Hsend : send_request E m ps w
                  = (Raise e, mkWorld (service w) (EvPopen :: trace w))).
  { unfold send_request, bind at 1, ensure_connected, bind at 1, get_service.
    rewrite Hp. unfold start, bind at 1, get_service. rewrite Hp.
    unfold bind, effect. now rewrite Hpopen. }
  split; [assumption |].
  intros Hnot. unfold dispatched, try_except. rewrite Hsend.
  destruct e; try reflexivity. now destruct (Hnot error).
Qed.

(** The worker is spawned but the first connection fails. The call fails
    with [INTERNAL_ERROR] "Failed to connect to Swift service: ..." and the
    process stays stored without streams. The next [ensure_connected] then
    only connects: no second worker, no settling sleep. *)
Theorem failed_first_connection_is_retried (t : list Event) (p : Pid) (e : exn) :
  popen E t = Ok p ->
  open_connection E (EvSleep 2 :: EvPopen :: t) = Raise e ->
  let w1 := mkWorld (mkService None None (Some p))
                    (EvOpenConnection host port :: EvSleep 2 :: EvPopen :: t) in
  ensure_connected E (mkWorld (mkService None None None) t)
  = (Raise (McpError (mkErrorData INTERNAL_ERROR
                        ("Failed to connect to Swift service: " ++ exn_str E e))),
     w1)
  /\ ensure_connected E w1
     = match open_connection E (trace w1) with
       | Ok c => (Ok tt, mkWorld (mkService (Some c) (Some c) (Some p))
                                 (EvOpenConnection host port :: trace w1))
       | Raise e' =>
           (Raise (McpError (mkErrorData INTERNAL_ERROR
                     ("Failed to connect to Swift service: " ++ exn_str E e'))),
            mkWorld (service w1) (EvOpenConnection host port :: trace w1))
       end.
Proof.
  intros Hpopen Hopen w1. split.
  - unfold ensure_connected, start, connect, bind, get_service, effect,
      set_service, try_except, internal_error, raise; cbn.
    rewrite Hpopen; cbn. rewrite Hopen. reflexivity.
  - subst w1.
    unfold ensure_connected, connect, bind, get_service, effect,
      set_service, try_except, internal_error, raise; cbn.
    destruct (open_connection E
                (EvOpenConnection host port :: EvSleep 2 :: EvPopen :: t));
      reflexivity.
Qed.

(** [ensure_connected] never spawns while a process is stored and never
    spawns or connects twice: its effects are at most one [Popen] with its
    sleep and at most one [open_connection]. *)
Theorem ensure_connected_effects (w : World) :
  exists new,
    trace (snd (ensure_connected E w)) = new ++ trace w
    /\ count is_popen new <= 1
    /\ count is_open_connection new <= 1
    /\ (swift_process (service w) <> None -> count is_popen new = 0)
    /\ forallb (fun ev => is_popen ev || is_open_connection ev
                          || match ev with EvSleep _ => true | _ => false end)
         new = true.
Proof.
  destruct w as [[rd wr sp] t].
  unfold ensure_connected, start, connect, bind, get_service, effect,
    set_service, try_except, internal_error, raise, ret; cbn.
  destruct sp as [p |]; cbn.
  - destruct rd as [r |]; [destruct wr as [c |] |]; cbn.
    + exists []; cbn; repeat split; auto.
    + exists [EvOpenConnection host port].
      destruct (open_connection E t); cbn; repeat split; auto.
    + exists [EvOpenConnection host port].
      destruct (open_connection E t); cbn; repeat split; auto.
  - destruct (popen E t) as [p |]; cbn.
    + destruct rd as [r |]; [destruct wr as [c |] |]; cbn.
      * exists [EvSleep 2; EvPopen]; cbn; repeat split; auto.
        intros H; now destruct H.
      * exists [EvOpenConnection host port; EvSleep 2; EvPopen].
        destruct (open_connection E _); cbn; repeat split; auto;
          intros H; now destruct H.
      * exists [EvOpenConnection host port; EvSleep 2; EvPopen].
        destruct (open_connection E _); cbn; repeat split; auto;
          intros H; now destruct H.
    + exists [EvPopen]; cbn; repeat split; auto.
      intros H; now destruct H.
Qed.

(** A call on a connected service touches the stream and nothing else: its
    effects are one write, at most one drain and at most one read; it
    spawns nothing, opens and closes no connection, sends no signal, and
    leaves the fields of the service as they were, whether it returns or
    raises. *)
Theorem send_request_frame
  (m : string) (ps : list (string * string)) (w : World) (c : Conn) :
  connected w c ->
  service (snd (send_request E m ps w)) = service w
  /\ exists new,
       trace (snd (send_request E m ps w)) = new ++ trace w
       /\ forallb (fun ev => match ev with
                             | EvWrite _ _ | EvDrain _ | EvReadline _ => true
                             | _ => false
                             end) new = true
       /\ count is_write new = 1
       /\ count is_readline new <= 1.
Proof.
  intros Hc.
  rewrite (send_request_connected E m ps w c Hc).
  rewrite try_except_world by apply send_request_handler_world.
  destruct Hc as (r & p & Hs).
  assert (Hw : writer (service w) = Some c) by (rewrite Hs; reflexivity).
  destruct (exchange_send_writes E m ps w c Hw) as [Hsend Htr].
  unfold exchange, bind.
  destruct (exchange_send E m ps w) as [[[] | e] w1]; cbn in *.
  - assert (Hr : reader (service w1) = Some r) by (rewrite Hsend, Hs; reflexivity).
    destruct (exchange_receive_reads E w1 r Hr) as [Hs2 Ht2].
    rewrite Hs2, Ht2. split; [assumption |].
    destruct Htr as [-> | ->].
    + exists [EvReadline r; EvWrite c (Wire.encode
                (mkRequest (id_of_params E (trace w)) m ps))].
      repeat split; auto.
    + exists [EvReadline r; EvDrain c; EvWrite c (Wire.encode
                (mkRequest (id_of_params E (trace w)) m ps))].
      repeat split; auto.
  - split; [assumption |].
    destruct Htr as [-> | ->].
    + exists [EvWrite c (Wire.encode (mkRequest (id_of_params E (trace w)) m ps))].
      repeat split; auto.
    + exists [EvDrain c; EvWrite c (Wire.encode
                (mkRequest (id_of_params E (trace w)) m ps))].
      repeat split; auto.
Qed.

(** Teardown has nothing left to do the second time: after a [stop] that
    returned, and after any [_cleanup], a further [_cleanup] performs no
    effect and changes nothing. *)
Theorem cleanup_after_teardown_is_noop (w : World) :
  (fst (stop E w) = Ok tt ->
   _cleanup E (snd (stop E w)) = (Ok tt, snd (stop E w)))
  /\ _cleanup E (snd (_cleanup E w)) = (Ok tt, snd (_cleanup E w)).
Proof.
  split.
  - intros Hok. unfold _cleanup at 1. apply terminate_process_none.
    rewrite stop_unfold in *.
    destruct (close_writer E w) as [[[] | e] w1]; cbn in *; [| discriminate].
    apply terminate_process_ok.
  - unfold _cleanup. apply terminate_process_none. apply terminate_process_ok.
Qed.

End StartFacts.

(** ** Answers the bridge does not expect *)

Section OddAnswers.
Context (E : Env).
Import SwiftService.

(** The worker's answer is JSON but not what lines 184-193 look into. An
    answer that is no object (a list, a string, a number, [null]) fails with
    a [TypeError], and an object without a truthy "error" and without
    "result" fails with [KeyError('result')]; either way the call raises
    [INTERNAL_ERROR] "Swift service error: ..." and returns nothing. *)
Theorem malformed_answer_is_internal_error
  (m : string) (ps : list (string * string)) (w : World) (c : Conn)
  (response : pyval) :
  connected w c ->
  replies_with E m ps w response ->
  (isinstance_dict response = false ->
   fst (send_request E m ps w)
   = Raise (McpError (mkErrorData INTERNAL_ERROR
                        ("Swift service error: " ++ exn_str E TypeError))))
  /\ (forall fields, response = PyDict fields -> no_top_error fields ->
      dict_get "result" fields = None ->
      fst (send_request E m ps w)
      = Raise (McpError (mkErrorData INTERNAL_ERROR
                 ("Swift service error: " ++ exn_str E (KeyError "result"))))).
Proof.
  intros Hc Hreply.
  rewrite (send_request_checks_response E m ps w c response Hc Hreply).
  split.
  - intros Hd. unfold check_response.
    destruct response; try discriminate Hd; cbn.
    + reflexivity.
    + reflexivity.
    + reflexivity.
    + reflexivity.
    + destruct (is_substring "error" s); reflexivity.
    + destruct (existsb (eq_str "error") items); reflexivity.
  - intros fields -> Hno Hres.
    unfold check_response, no_top_error in *; cbn. unfold dict_has.
    destruct (dict_get "error" fields) as [e |]; cbn.
    + rewrite Hno; cbn. now rewrite Hres.
    + now rewrite Hres.
Qed.

(** The line read is no JSON: [json.loads] raises [JSONDecodeError], the
    first handler takes it, and the call raises [INTERNAL_ERROR] "Failed to
    decode Swift service response: ...". Any other exception of the
    decoding goes to the second handler. The service is left as it was. *)
Theorem undecodable_answer_is_internal_error
  (m : string) (ps : list (string * string)) (w w1 : World) (c r : Conn)
  (line : string) (e : exn) :
  connected w c ->
  exchange_send E m ps w = (Ok tt, w1) ->
  reader (service w1) = Some r ->
  readline E (trace w1) r = Ok line ->
  json_loads E line = Raise e ->
  service (snd (send_request E m ps w)) = service w
  /\ fst (send_request E m ps w)
     = Raise (McpError (mkErrorData INTERNAL_ERROR
                (match e with
                 | JSONDecodeError _ => "Failed to decode Swift service response: "
                 | _ => "Swift service error: "
                 end ++ exn_str E e))).
Proof.
  intros Hc Hsend Hr Hline Hloads.
  destruct (exchange_frame E m ps w c Hc) as [Hsvc _].
  rewrite (send_request_connected E m ps w c Hc).
  split.
  - rewrite try_except_world by apply send_request_handler_world. assumption.
  - unfold try_except, exchange, bind. rewrite Hsend.
    unfold exchange_receive, bind, the_stream, get_service, effect, lift; cbn.
    rewrite Hr; cbn. rewrite Hline, Hloads; cbn.
    destruct e; reflexivity.
Qed.

End OddAnswers.

(** ** More on the request line *)

Section WireMore.
Import Wire Decode.
Local Open Scope string_scope.

Lemma printable_app (a b : string) :
  printable (a ++ b) = printable a && printable b.
Proof.
  induction a as [| c a IH]; cbn; [reflexivity |].
  now rewrite IH, andb_assoc.
Qed.

Lemma printable_escape_char (c : ascii) : printable (escape_char c) = true.
Proof. destruct c as [[] [] [] [] [] [] [] []]; reflexivity. Qed.

Lemma printable_escape (s : string) : printable (escape s) = true.
Proof.
  induction s as [| c s IH]; [reflexivity |].
  cbn [escape]. now rewrite printable_app, printable_escape_char, IH.
Qed.

Lemma printable_dumps_str (s : string) : printable (dumps_str s) = true.
Proof.
  unfold dumps_str. cbn [printable].
  rewrite printable_app, printable_escape. reflexivity.
Qed.

Lemma printable_dumps_items (items : list (string * string)) :
  printable (dumps_items items) = true.
Proof.
  induction items as [| [k v] items IH]; [reflexivity |].
  destruct items as [| kv items].
  - cbn [dumps_items].
    now rewrite !printable_app, !printable_dumps_str.
  - change (dumps_items ((k, v) :: kv :: items))
      with (dumps_str k ++ ": " ++ dumps_str v ++ ", " ++ dumps_items (kv :: items)).
    now rewrite !printable_app, !printable_dumps_str, IH.
Qed.

(** Whatever characters the id, the method and the parameters hold, the
    text [json.dumps] writes for a request is printable ASCII throughout:
    [.encode()] cannot fail on it, and every byte of the line is one of its
    characters. *)
Theorem dumps_is_printable_ascii (r : Request) :
  printable (dumps r) = true.
Proof.
  unfold dumps, dumps_dict.
  now rewrite !printable_app, !printable_dumps_str, printable_dumps_items.
Qed.

Lemma escape_plain (s : string) : plain s = true -> escape s = s.
Proof.
  induction s as [| c s IH]; [reflexivity |].
  cbn [plain escape]. intros H.
  apply andb_prop in H as [H Hs].
  rewrite (IH Hs).
  assert (Hc : escape_char c = String c "").
  { clear - H. destruct c as [[] [] [] [] [] [] [] []];
      first [reflexivity | discriminate H]. }
  now rewrite Hc.
Qed.

(** A string of printable ASCII characters without quote and backslash, a
    method name or a USR such as [s:4main], goes on the wire as it is
    between two quotes, nothing escaped. *)
Theorem plain_string_is_written_verbatim (s : string) :
  plain s = true ->
  dumps_str s = String dquote (s ++ String dquote "").
Proof.
  intros H. unfold dumps_str. now rewrite (escape_plain s H).
Qed.

End WireMore.

(** ** One instance, one logger *)

Section SingletonFacts.
Import Singleton.

Lemma reachable_shape (p : Program) :
  reachable p ->
  p = initial_program
  \/ (_initialized p = true /\ _instance p = Some 0 /\ allocated p = 1
      /\ atexit_hooks p = [0]
      /\ exists s, attributes_of 0 (attributes p) = Some s).
Proof.
  induction 1 as [| p q Hp IH Hstep]; [now left |].
  right. destruct Hstep as [p | p self old new Hattr].
  - destruct IH as [-> | (Hi & Hinst & Ha & Hh & s & Hs)].
    + cbn. repeat split. now exists (mkService None None None).
    + unfold instantiate, __new__, __init__. rewrite Hinst. cbn. rewrite Hi. cbn.
      repeat split; auto. now exists s.
  - destruct IH as [-> | (Hi & Hinst & Ha & Hh & s & Hs)].
    + discriminate Hattr.
    + cbn. repeat split; auto.
      destruct (Nat.eqb self 0); [now exists new | now exists s].
Qed.

(** However often [SwiftService()] is called, and whatever the methods of
    the instance assigned in between, every call returns the same object,
    the first one; one object was ever created and one [_cleanup] is
    registered with [atexit]; and a call after the first changes nothing, so
    the process and stream handles stored in the instance survive it. *)
Theorem singleton_is_created_once (p : Program) :
  reachable p ->
  fst (instantiate p) = 0
  /\ _instance (snd (instantiate p)) = Some 0
  /\ allocated (snd (instantiate p)) = 1
  /\ atexit_hooks (snd (instantiate p)) = [0]
  /\ (_initialized p = true -> snd (instantiate p) = p)
  /\ (p = initial_program ->
      attributes_of 0 (attributes (snd (instantiate p)))
      = Some (mkService None None None)).
Proof.
  intros Hr.
  destruct (reachable_shape p Hr) as [-> | (Hi & Hinst & Ha & Hh & s & Hs)].
  - cbn. repeat split. discriminate.
  - unfold instantiate, __new__, __init__. rewrite Hinst. cbn. rewrite Hi. cbn.
    repeat split; auto.
    intros ->. discriminate Hi.
Qed.

End SingletonFacts.

Section LoggingFacts.
Import Logging.

Lemma removeHandler_head (h : Handler) (hs : list Handler) (l : Level) :
  removeHandler h (mkLogger l (h :: hs)) = mkLogger l hs.
Proof.
  unfold removeHandler; cbn. unfold same. rewrite Nat.eqb_refl. reflexivity.
Qed.

Lemma remove_handlers_empties (fuel : nat) (lg : Logger) :
  length (handlers lg) <= fuel ->
  remove_handlers fuel lg = Some (mkLogger (level lg) []).
Proof.
  revert lg. induction fuel as [| fuel IH]; intros [l hs]; cbn [handlers level].
  - destruct hs; cbn; [reflexivity | lia].
  - destruct hs as [| h hs]; cbn [length]; intros Hlen; [reflexivity |].
    cbn [remove_handlers handlers]. rewrite removeHandler_head.
    rewrite IH by (cbn; lia). reflexivity.
Qed.

(** Whatever handlers the root logger had, console handlers or others, one
    or many, the same one twice: the loop of [configure_logger] ends, and
    the logger is left at level DEBUG with exactly one handler, the rotating
    file handler for the given path. Nothing logs to the terminal. *)
Theorem configure_logger_leaves_the_file_handler
  (log_file_path : string) (fresh : nat) (root : Logger) :
  configure_logger log_file_path fresh root
  = Some (mkLogger DEBUG [file_handler fresh log_file_path]).
Proof.
  unfold configure_logger.
  rewrite remove_handlers_empties by (cbn; lia).
  reflexivity.
Qed.

End LoggingFacts.

(** ** More sessions *)

Section MoreSessions.
Import SwiftService Scenario.

Lemma tools_raise_mcp_errors_witness :
  (exists d,
     McpError (mkErrorData INTERNAL_ERROR
       "Failed to load index for project 'App': [Errno 2] No such file or directory")
     = McpError d)
  /\ (exists d,
        McpError (mkErrorData INTERNAL_ERROR
          "Failed to search pattern: [Errno 2] No such file or directory")
        = McpError d).
Proof.
  split.
  - apply (proj1 (tools_raise_mcp_errors no_executable initial_world _) "App").
    vm_compute; reflexivity.
  - apply (proj2 (proj2 (proj2 (tools_raise_mcp_errors no_executable
                                  initial_world _))) "main" None).
    vm_compute; reflexivity.
Defined.

Lemma invalid_params_means_invalid_argument_witness :
  exists r, In r ["reference"; "caller"] /\ ~ In r valid_roles.
Proof.
  apply (proj1 (invalid_params_means_invalid_argument
                  (rejecting (PyStr "bad usr")) connected_world 1
                  "Invalid roles: ['caller']. Must be one of: ['reference', 'definition']"
                  (ex_intro _ 1 (ex_intro _ 100 eq_refl)))
           "s:4main" ["reference"; "caller"]).
  vm_compute; reflexivity.
Defined.

Lemma spawn_failure_is_not_stored_witness :
  send_request no_executable "is_available" [("projectName", "App")] initial_world
  = (Raise (OtherException "[Errno 2] No such file or directory"),
     mkWorld (service initial_world) (EvPopen :: trace initial_world))
  /\ dispatched no_executable "Failed to search pattern: " "is_available"
       [("projectName", "App")] initial_world
     = (Raise (McpError (mkErrorData INTERNAL_ERROR
                 ("Failed to search pattern: "
                    ++ exn_str no_executable
                         (OtherException "[Errno 2] No such file or directory")))),
        mkWorld (service initial_world) (EvPopen :: trace initial_world)).
Proof.
  destruct (spawn_failure_is_not_stored no_executable "is_available"
              [("projectName", "App")] "Failed to search pattern: "
              initial_world
              (OtherException "[Errno 2] No such file or directory")
              eq_refl eq_refl) as [H1 H2].
  split; [exact H1 |].
  apply H2. intros d H; discriminate H.
Defined.

Lemma failed_first_connection_is_retried_witness :
  ensure_connected slow_worker (mkWorld (mkService None None None) [])
  = (Raise (McpError (mkErrorData INTERNAL_ERROR
              ("Failed to connect to Swift service: "
                 ++ exn_str slow_worker
                      (OtherException "[Errno 61] Connection refused")))),
     mkWorld (mkService None None (Some 100))
             [EvOpenConnection host port; EvSleep 2; EvPopen]).
Proof.
  apply (proj1 (failed_first_connection_is_retried slow_worker [] 100
                  (OtherException "[Errno 61] Connection refused")
                  eq_refl eq_refl)).
Defined.

Lemma send_request_frame_witness :
  service (snd (drop_call connected_world)) = service connected_world
  /\ exists new,
       trace (snd (drop_call connected_world)) = new ++ trace connected_world
       /\ forallb (fun ev => match ev with
                             | EvWrite _ _ | EvDrain _ | EvReadline _ => true
                             | _ => false
                             end) new = true
       /\ count is_write new = 1
       /\ count is_readline new <= 1.
Proof.
  apply (send_request_frame dropped "search_pattern" [("pattern", "main")]
           connected_world 1).
  exists 1, 100. reflexivity.
Defined.

Lemma cleanup_after_teardown_is_noop_witness :
  _cleanup healthy (snd (stop healthy connected_world))
  = (Ok tt, snd (stop healthy connected_world)).
Proof.
  apply (proj1 (cleanup_after_teardown_is_noop healthy connected_world)).
  reflexivity.
Defined.

Lemma malformed_answer_is_internal_error_witness :
  fst (send_request (odd_worker list_line) "search_pattern" [("pattern", "main")]
         connected_world)
  = Raise (McpError (mkErrorData INTERNAL_ERROR
             ("Swift service error: " ++ exn_str (odd_worker list_line) TypeError)))
  /\ fst (send_request (odd_worker no_result_line) "search_pattern"
            [("pattern", "main")] connected_world)
     = Raise (McpError (mkErrorData INTERNAL_ERROR
                ("Swift service error: "
                   ++ exn_str (odd_worker no_result_line) (KeyError "result")))).
Proof.
  split.
  - apply (proj1 (malformed_answer_is_internal_error (odd_worker list_line)
                    "search_pattern" [("pattern", "main")] connected_world 1
                    (PyList [PyInt 1])
                    (ex_intro _ 1 (ex_intro _ 100 eq_refl))
                    (ex_intro _ _ (ex_intro _ 1 (ex_intro _ _
                       (conj eq_refl (conj eq_refl (conj eq_refl eq_refl)))))))).
    reflexivity.
  - apply (proj2 (malformed_answer_is_internal_error (odd_worker no_result_line)
                    "search_pattern" [("pattern", "main")] connected_world 1
                    (PyDict [("id", PyStr "4003")])
                    (ex_intro _ 1 (ex_intro _ 100 eq_refl))
                    (ex_intro _ _ (ex_intro _ 1 (ex_intro _ _
                       (conj eq_refl (conj eq_refl (conj eq_refl eq_refl)))))))
             [("id", PyStr "4003")] eq_refl).
    + exact I.
    + reflexivity.
Defined.

Lemma undecodable_answer_is_internal_error_witness :
  service (snd (send_request (odd_worker garbage_line) "search_pattern"
                  [("pattern", "main")] connected_world))
  = service connected_world
  /\ fst (send_request (odd_worker garbage_line) "search_pattern"
            [("pattern", "main")] connected_world)
     = Raise (McpError (mkErrorData INTERNAL_ERROR
                ("Failed to decode Swift service response: "
                   ++ exn_str (odd_worker garbage_line)
                        (JSONDecodeError "Expecting value: line 1 column 1 (char 0)")))).
Proof.
  apply (undecodable_answer_is_internal_error (odd_worker garbage_line)
           "search_pattern" [("pattern", "main")] connected_world _ 1 1
           garbage_line
           (JSONDecodeError "Expecting value: line 1 column 1 (char 0)")
           (ex_intro _ 1 (ex_intro _ 100 eq_refl))
           eq_refl eq_refl eq_refl eq_refl).
Defined.

Lemma plain_string_is_written_verbatim_witness :
  Wire.dumps_str "s:4main3FooV"
  = String Wire.dquote ("s:4main3FooV" ++ String Wire.dquote "").
Proof.
  apply (plain_string_is_written_verbatim "s:4main3FooV"). reflexivity.
Defined.

Lemma singleton_is_created_once_witness :
  fst (Singleton.instantiate
         (Singleton.mkProgram (Some 0) true 1
            [(0, mkService (Some 1) (Some 1) (Some 100));
             (0, mkService None None None)] [0])) = 0
  /\ Singleton._instance (snd (Singleton.instantiate
         (Singleton.mkProgram (Some 0) true 1
            [(0, mkService (Some 1) (Some 1) (Some 100));
             (0, mkService None None None)] [0]))) = Some 0
  /\ Singleton.allocated (snd (Singleton.instantiate
         (Singleton.mkProgram (Some 0) true 1
            [(0, mkService (Some 1) (Some 1) (Some 100));
             (0, mkService None None None)] [0]))) = 1
  /\ Singleton.atexit_hooks (snd (Singleton.instantiate
         (Singleton.mkProgram (Some 0) true 1
            [(0, mkService (Some 1) (Some 1) (Some 100));
             (0, mkService None None None)] [0]))) = [0]
  /\ snd (Singleton.instantiate
         (Singleton.mkProgram (Some 0) true 1
            [(0, mkService (Some 1) (Some 1) (Some 100));
             (0, mkService None None None)] [0]))
     = Singleton.mkProgram (Some 0) true 1
         [(0, mkService (Some 1) (Some 1) (Some 100));
          (0, mkService None None None)] [0].
Proof.
  assert (Hr : Singleton.reachable
                 (Singleton.mkProgram (Some 0) true 1
                    [(0, mkService (Some 1) (Some 1) (Some 100));
                     (0, mkService None None None)] [0])).
  { apply (Singleton.reachable_step
             (snd (Singleton.instantiate Singleton.initial_program))).
    - apply (Singleton.reachable_step Singleton.initial_program).
      + apply Singleton.reachable_initial.
      + apply Singleton.step_instantiate.
    - apply (Singleton.step_assign
               (snd (Singleton.instantiate Singleton.initial_program))
               0 (mkService None None None)
               (mkService (Some 1) (Some 1) (Some 100))).
      reflexivity. }
  destruct (singleton_is_created_once _ Hr) as (H1 & H2 & H3 & H4 & H5 & _).
  exact (conj H1 (conj H2 (conj H3 (conj H4 (H5 eq_refl))))).
Defined.

End MoreSessions.

(** ** Any schedule *)

Section ScheduleFacts.
Context (E : Env).
Import SwiftService Concurrent.

Lemma begin_on_connected (m : string) (ps : list (string * string))
  (w : World) (c : Conn) :
  connected w c ->
  service (snd (begin E m ps w)) = service w
  /\ count is_write (trace (snd (begin E m ps w))) = S (count is_write (trace w))
  /\ is_pending (fst (begin E m ps w)) = false.
Proof.
  intros Hc.
  unfold begin. rewrite (ensure_connected_noop E w c Hc).
  destruct Hc as (r & p & Hs).
  assert (Hw : writer (service w) = Some c) by (rewrite Hs; reflexivity).
  destruct (exchange_send_writes E m ps w c Hw) as [Hsvc Htr].
  destruct (exchange_send E m ps w) as [[[] | e] w1]; cbn in *.
  - split; [assumption |]. split; [| reflexivity].
    unfold count. destruct Htr as [-> | ->]; reflexivity.
  - rewrite (surjective_pairing (@send_request_handler E pyval e w1)).
    cbn. rewrite send_request_handler_world.
    split; [assumption |]. split; [| reflexivity].
    unfold count. destruct Htr as [-> | ->]; reflexivity.
Qed.

Lemma resume_on_connected (w : World) (c : Conn) :
  connected w c ->
  service (snd (resume E w)) = service w
  /\ count is_write (trace (snd (resume E w))) = count is_write (trace w)
  /\ is_pending (fst (resume E w)) = false.
Proof.
  intros (r & p & Hs).
  assert (Hr : reader (service w) = Some r) by (rewrite Hs; reflexivity).
  destruct (exchange_receive_reads E w r Hr) as [Hsvc Htr].
  unfold resume.
  rewrite (surjective_pairing
             (try_except (exchange_receive E) (@send_request_handler E pyval) w)).
  cbn. rewrite try_except_world by apply send_request_handler_world.
  rewrite Hsvc, Htr. repeat split.
Qed.

Lemma pending_set_nth (i : nat) (c c' : call) (calls : list call) :
  nth_error calls i = Some c ->
  pending (set_nth i c' calls) + Nat.b2n (is_pending c)
  = pending calls + Nat.b2n (is_pending c')
  /\ length (set_nth i c' calls) = length calls.
Proof.
  revert i. induction calls as [| c0 calls IH]; intros [| i] H; try discriminate.
  - injection H as ->. unfold pending. cbn.
    destruct (is_pending c), (is_pending c'); cbn; lia.
  - destruct (IH i H) as [IH1 IH2]. unfold pending in *. cbn.
    destruct (is_pending c0); cbn; lia.
Qed.

(** Whatever the schedule and however many calls overlap on a connected
    service: the fields of the service never change, no call is lost or
    added, and every call writes exactly one request, when it runs first;
    the requests written and the calls still to run always add up to the
    same number. *)
Theorem schedule_writes_one_request_per_call
  (schedule : list nat) (calls : list call) (w : World) (c : Conn) :
  connected w c ->
  service (snd (run_schedule E schedule (calls, w))) = service w
  /\ length (fst (run_schedule E schedule (calls, w))) = length calls
  /\ count is_write (trace (snd (run_schedule E schedule (calls, w))))
     + pending (fst (run_schedule E schedule (calls, w)))
     = count is_write (trace w) + pending calls.
Proof.
  revert calls w. induction schedule as [| i schedule IH]; intros calls w Hc.
  - cbn. auto.
  - unfold run_schedule in *. cbn [fold_left].
    assert (Hstep : connected (snd (step E i (calls, w))) c
                    /\ service (snd (step E i (calls, w))) = service w
                    /\ length (fst (step E i (calls, w))) = length calls
                    /\ count is_write (trace (snd (step E i (calls, w))))
                       + pending (fst (step E i (calls, w)))
                       = count is_write (trace w) + pending calls).
    { unfold step.
      destruct (nth_error calls i) as [c0 |] eqn:Hnth; [| cbn; auto].
      assert (Hcall : service (snd (step_call E c0 w)) = service w
                      /\ count is_write (trace (snd (step_call E c0 w)))
                         + Nat.b2n (is_pending (fst (step_call E c0 w)))
                         = count is_write (trace w) + Nat.b2n (is_pending c0)).
      { destruct c0 as [m ps | | r0]; cbn [step_call].
        - destruct (begin_on_connected m ps w c Hc) as (H1 & H2 & H3).
          rewrite H1, H2, H3. cbn. split; [reflexivity | lia].
        - destruct (resume_on_connected w c Hc) as (H1 & H2 & H3).
          rewrite H1, H2, H3. cbn. split; [reflexivity | lia].
        - cbn. auto. }
      destruct Hcall as [Hsvc Hcount].
      destruct (pending_set_nth i c0 (fst (step_call E c0 w)) calls Hnth)
        as [Hpend Hlen].
      destruct (step_call E c0 w) as [c' w']; cbn in *.
      split; [| split; [| split]].
      - destruct Hc as (r & p & Hs). exists r, p. now rewrite Hsvc.
      - assumption.
      - assumption.
      - unfold pending in *. lia. }
    destruct Hstep as (Hc1 & Hs1 & Hl1 & Hn1).
    destruct (step E i (calls, w)) as [calls1 w1]; cbn in *.
    destruct (IH calls1 w1 Hc1) as (Hs2 & Hl2 & Hn2).
    rewrite Hs2, Hl2, Hn2. repeat split; try assumption; lia.
Qed.

End ScheduleFacts.

Section ScheduleWitness.
Import SwiftService Concurrent Scenario.

Lemma schedule_writes_one_request_per_call_witness :
  service (snd (run_schedule healthy [0; 1; 1; 0] two_calls))
  = service connected_world
  /\ length (fst (run_schedule healthy [0; 1; 1; 0] two_calls)) = 2
  /\ count is_write (trace (snd (run_schedule healthy [0; 1; 1; 0] two_calls)))
     + pending (fst (run_schedule healthy [0; 1; 1; 0] two_calls))
     = count is_write (trace connected_world) + 2.
Proof.
  apply (schedule_writes_one_request_per_call healthy [0; 1; 1; 0]
           (fst two_calls) connected_world 1).
  exists 1, 100. reflexivity.
Defined.

End ScheduleWitness.
